(** * Keanu's Candy Store: the Person / User / Staff layer

    A shallow embedding of [keanus_candy/models/newperson.py] and the
    properties of its methods.  Python objects that are shared by reference
    (the order history list, the shopping cart, candies) live in a heap
    indexed by locations; a method is a computation over the receiver and
    that heap which either returns a value or raises an exception. *)

From Stdlib Require Import ZArith NArith Ascii String DecimalString.
From Stdlib Require Import PrimFloat SpecFloat FloatOps.
From stdpp Require Import base option list gmap.

Local Open Scope Z_scope.

(** ** Python strings: sequences of Unicode code points *)

Module PyStr.

Definition codepoint := N.
Definition pystr := list codepoint.

Definition chr (a : ascii) : codepoint := N_of_ascii a.
Arguments chr : simpl never.

(** A literal of the source text. *)
Definition str (s : string) : pystr := map N_of_ascii (list_ascii_of_string s).
Arguments str : simpl never.

(** [len(s)] *)
Definition len (s : pystr) : Z := Z.of_nat (length s).

(** [a == b] on strings: exact, code point by code point. *)
Definition str_eq (a b : pystr) : bool := bool_decide (a = b).

(** [c in s] for a needle of one character. *)
Definition contains (c : codepoint) (s : pystr) : bool := existsb (N.eqb c) s.

(** The characters [str.strip()] removes: those for which [str.isspace]
    holds (U+0009..U+000D, U+001C..U+0020, U+0085, U+00A0, U+1680,
    U+2000..U+200A, U+2028, U+2029, U+202F, U+205F, U+3000). *)
Definition isspace (c : codepoint) : bool :=
  (((9 <=? c) && (c <=? 13)) || ((28 <=? c) && (c <=? 32))
   || (c =? 133) || (c =? 160) || (c =? 5760)
   || ((8192 <=? c) && (c <=? 8202))
   || (c =? 8232) || (c =? 8233) || (c =? 8239) || (c =? 8287)
   || (c =? 12288))%N.

Fixpoint lstrip (s : pystr) : pystr :=
  match s with
  | [] => []
  | c :: s' => if isspace c then lstrip s' else s
  end.

Definition rstrip (s : pystr) : pystr := rev (lstrip (rev s)).

(** [s.strip()] *)
Definition strip (s : pystr) : pystr := rstrip (lstrip s).

(** [s.split(sep)] for a separator of one character: the pieces between
    the occurrences of [sep], in order; never the empty list. *)
Fixpoint split (sep : codepoint) (s : pystr) : list pystr :=
  match s with
  | [] => [[]]
  | c :: s' =>
      if (c =? sep)%N then [] :: split sep s'
      else match split sep s' with
           | p :: ps => (c :: p) :: ps
           | [] => [[c]]
           end
  end.

(** Truth value of a string: non-empty. *)
Definition truthy (s : pystr) : bool :=
  match s with [] => false | _ :: _ => true end.

End PyStr.
Export PyStr.

(** ** Python numbers: [int] and [float] *)

Module PyNum.

Inductive number :=
| NInt (z : Z)
| NFloat (f : float).

(** [float(z)] for an [int]: the nearest binary64 value, ties to even;
    [None] stands for the OverflowError of an int beyond the float range. *)
Definition float_of_int (z : Z) : option float :=
  match binary_normalize prec emax z 0 false with
  | S754_infinity _ | S754_nan => None
  | sf => Some (SF2Prim sf)
  end.

(** [a + b]; [None] is the OverflowError of a mixed addition. *)
Definition py_add (a b : number) : option number :=
  match a, b with
  | NInt x, NInt y => Some (NInt (x + y))
  | NInt x, NFloat g => f ← float_of_int x; Some (NFloat (f + g)%float)
  | NFloat f, NInt y => g ← float_of_int y; Some (NFloat (f + g)%float)
  | NFloat f, NFloat g => Some (NFloat (f + g)%float)
  end.

(** [sum(xs)]: starts from the int [0] and adds the items left to right,
    each addition rounded as [+] rounds it; this is [sum] as CPython up to
    3.11 computes it.  From 3.12 on CPython adds a run of floats with a
    compensation term, and the result can then differ from this one, by
    any amount when large terms cancel.  Sums of ints, the empty list, the
    totals 10.5 and 4.25 and sums that overflow come out the same under
    both. *)
Fixpoint sum_from (acc : number) (xs : list number) : option number :=
  match xs with
  | [] => Some acc
  | x :: xs' => acc' ← py_add acc x; sum_from acc' xs'
  end.

Definition py_sum (xs : list number) : option number := sum_from (NInt 0) xs.

(** The number of hundredths nearest to the exact value [m * 2^e], ties
    to even, as the correctly rounded conversion to decimal gives it. *)
Definition round_cents (m : positive) (e : Z) : Z :=
  if 0 <=? e then Z.pos m * 2 ^ e * 100
  else
    let num := Z.pos m * 100 in
    let den := 2 ^ (- e) in
    let q := num / den in
    let r := num mod den in
    if 2 * r <? den then q
    else if den <? 2 * r then q + 1
    else if Z.even q then q else q + 1.

Definition digit (d : Z) : codepoint := (N_of_ascii "0" + Z.to_N d)%N.

Definition decimal (n : Z) : pystr :=
  str (NilZero.string_of_uint (N.to_uint (Z.to_N n))).

Definition sign_str (s : bool) : pystr := if s then str "-" else [].

(** Fixed-point text of a count of hundredths. *)
Definition render_cents (s : bool) (cents : Z) : pystr :=
  sign_str s ++ decimal (cents / 100) ++ str "."
    ++ [digit (cents mod 100 / 10); digit (cents mod 10)].

(** [format(f, ".2f")] on a float. *)
Definition format_2f_float (f : float) : pystr :=
  match Prim2SF f with
  | S754_nan => str "nan"
  | S754_infinity s => sign_str s ++ str "inf"
  | S754_zero s => render_cents s 0
  | S754_finite s m e => render_cents s (round_cents m e)
  end.

(** [format(x, ".2f")]: an int is converted to float first. *)
Definition format_2f (x : number) : option pystr :=
  match x with
  | NInt z => f ← float_of_int z; Some (format_2f_float f)
  | NFloat f => Some (format_2f_float f)
  end.

(** [float(x)] of a number. *)
Definition to_float (x : number) : option float :=
  match x with
  | NInt z => float_of_int z
  | NFloat f => Some f
  end.

(** The sign and the rounded count of hundredths of a float that is
    neither infinite nor NaN. *)
Definition hundredths (f : float) : option (bool * Z) :=
  match Prim2SF f with
  | S754_zero s => Some (s, 0)
  | S754_finite s m e => Some (s, round_cents m e)
  | _ => None
  end.



End PyNum.
Export PyNum.

(** ** Dynamically typed field values *)

Inductive pyval :=
| PyNone
| PyBool (b : bool)
| PyInt (z : Z)
| PyFloat (f : float)
| PyStr (s : pystr).

(** [isinstance(v, int)] together with the integer it denotes: [bool] is a
    subclass of [int], with [False == 0] and [True == 1]. *)
Definition as_int (v : pyval) : option Z :=
  match v with
  | PyInt z => Some z
  | PyBool b => Some (Z.b2z b)
  | _ => None
  end.

(** [isinstance(v, str)] together with the string. *)
Definition as_str (v : pyval) : option pystr :=
  match v with
  | PyStr s => Some s
  | _ => None
  end.

(** ** Heap locations *)

Definition loc := positive.

(** ** The collaborators of the layer

    [newshopping.py] and the classes Candy, Order and PaymentMethod are not
    part of the module; the layer only calls the cart's constructor,
    [add_item], [create_order] and [clear], tests the cart's truth value and
    reads an order's [total_amount].  They are parameters of the
    development.  A cart method acts on the cart's own state and may fail
    with an exception of the collaborator, possibly after changing the
    cart. *)

Class Collaborators := {
  PaymentMethod : Type;
  Order : Type;
  ShoppingCart : Type;
  CollabError : Type;
  (** [ShoppingCart(self)] *)
  cart_new : ShoppingCart;
  (** [bool(cart)], as tested by [if not self._cart] *)
  cart_bool : ShoppingCart -> bool;
  (** [cart.add_item(candy, quantity)] *)
  add_item : ShoppingCart -> loc -> pyval -> (CollabError + unit) * ShoppingCart;
  (** [cart.create_order(payment_method)] *)
  create_order : ShoppingCart -> PaymentMethod -> (CollabError + Order) * ShoppingCart;
  (** [cart.clear()] *)
  clear : ShoppingCart -> (CollabError + unit) * ShoppingCart;
  (** [order.total_amount] *)
  total_amount : Order -> number;
}.

Section Layer.

Context `{shop : Collaborators}.

(** *** Exceptions *)

Inductive exn :=
| ValueError (msg : pystr)
| IndexError (msg : pystr)
| AttributeError (msg : pystr)
| OverflowError (msg : pystr)
| Foreign (e : CollabError).

(** The built-in class an exception is an instance of; what an [except]
    clause of the caller dispatches on. *)
Inductive exn_class :=
| ValueErrorClass
| IndexErrorClass
| AttributeErrorClass
| OverflowErrorClass.

Definition class_of (e : exn) : option exn_class :=
  match e with
  | ValueError _ => Some ValueErrorClass
  | IndexError _ => Some IndexErrorClass
  | AttributeError _ => Some AttributeErrorClass
  | OverflowError _ => Some OverflowErrorClass
  | Foreign _ => None
  end.

(** *** Objects *)

Inductive klass := UserClass | StaffClass.

(** An instance of [User] or of its subclass [Staff], with the attributes
    the constructors set; [position] is set by [Staff.__init__] only.  The
    id and the name are values of any type, which [validate] tests; the
    email and the password are strings, as the constructor annotates them:
    a record with an email that is no string is outside this model. *)
Record UserObj := mkUserObj {
  cls : klass;
  person_id : pyval;
  name : pyval;
  email : pystr;
  _password : pystr;
  _orders : loc;
  _cart : option loc;
  email_verified : bool;
  position : option pystr;
}.

Definition set_password (p : pystr) (u : UserObj) : UserObj :=
  {| cls := cls u; person_id := person_id u; name := name u;
     email := email u; _password := p; _orders := _orders u;
     _cart := _cart u; email_verified := email_verified u;
     position := position u |}.

Definition set_cart (c : option loc) (u : UserObj) : UserObj :=
  {| cls := cls u; person_id := person_id u; name := name u;
     email := email u; _password := _password u; _orders := _orders u;
     _cart := c; email_verified := email_verified u;
     position := position u |}.

Definition set_position (p : pystr) (u : UserObj) : UserObj :=
  {| cls := StaffClass; person_id := person_id u; name := name u;
     email := email u; _password := _password u; _orders := _orders u;
     _cart := _cart u; email_verified := email_verified u;
     position := Some p |}.

(** What a location holds. *)
Inductive obj :=
| ListObj (items : list Order)
| CartObj (c : ShoppingCart)
| CandyObj (quantity : pyval).

Record State := mkState {
  self : UserObj;
  heap : gmap loc obj;
}.

(** *** Computations

    [None] is reserved for a heap that is not well formed (a reference to
    nothing or to an object of the wrong class), which Python rules out. *)

Inductive outcome (A : Type) :=
| Returned (a : A)
| Raised (e : exn).
Arguments Returned {A} a.
Arguments Raised {A} e.

Definition M (A : Type) : Type := State -> option (outcome A * State).

Definition ret {A} (a : A) : M A := fun s => Some (Returned a, s).

Definition raise {A} (e : exn) : M A := fun s => Some (Raised e, s).

Definition bind {A B} (m : M A) (k : A -> M B) : M B :=
  fun s =>
    match m s with
    | Some (Returned a, s') => k a s'
    | Some (Raised e, s') => Some (Raised e, s')
    | None => None
    end.

Definition ill_formed {A} : M A := fun _ => None.

Definition get_self : M UserObj := fun s => Some (Returned (self s), s).

Definition put_self (u : UserObj) : M unit :=
  fun s => Some (Returned tt, mkState u (heap s)).

Definition load (l : loc) : M obj :=
  fun s => match heap s !! l with
           | Some o => Some (Returned o, s)
           | None => None
           end.

Definition store (l : loc) (o : obj) : M unit :=
  fun s => Some (Returned tt, mkState (self s) (<[l := o]> (heap s))).

Definition alloc (o : obj) : M loc :=
  fun s => let l := fresh (dom (heap s)) in
           Some (Returned l, mkState (self s) (<[l := o]> (heap s))).

End Layer.

Arguments Returned {shop A} a.
Arguments Raised {shop A} e.

Declare Scope py_scope.
Delimit Scope py_scope with py.
Notation "x <~ m ;; k" := (bind m (fun x => k))
  (at level 20, m at level 99, k at level 200, only parsing) : py_scope.
Notation "m ;; k" := (bind m (fun _ => k))
  (at level 100, k at level 200, only parsing, right associativity) : py_scope.

(** ** The classes of [newperson.py] *)

Section Methods.

Context `{shop : Collaborators}.
Local Open Scope py_scope.

(** [xs[-1]] *)
Definition getitem_last {A} (xs : list A) : M A :=
  match last xs with
  | Some x => ret x
  | None => raise (IndexError (str "list index out of range"))
  end.

(** [User.__init__], which runs [Person.__init__] first; the history is
    a new empty list. *)
Definition User_init (user_id nm : pyval) (em pw : pystr)
    (h : gmap loc obj) : State :=
  let l := fresh (dom h) in
  mkState
    {| cls := UserClass; person_id := user_id; name := nm; email := em;
       _password := pw; _orders := l; _cart := None;
       email_verified := false; position := None |}
    (<[l := ListObj []]> h).

(** [Staff.__init__] *)
Definition Staff_init (user_id nm : pyval) (em pw pos : pystr)
    (h : gmap loc obj) : State :=
  let s := User_init user_id nm em pw h in
  mkState (set_position pos (self s)) (heap s).

(** [User.login] *)
Definition login (em pw : pystr) : M bool :=
  u <~ get_self;;
  ret (str_eq (email u) em && str_eq (_password u) pw).

(** [User.validate] *)
Definition validate : M unit :=
  u <~ get_self;;
  (if match as_int (person_id u) with
      | None => true
      | Some z => z <? 0
      end
   then raise (ValueError (str "person_id must be a non-negative int"))
   else ret tt);;
  (if match as_str (name u) with
      | None => true
      | Some s => negb (truthy (strip s))
      end
   then raise (ValueError (str "name must be a non-empty string"))
   else ret tt);;
  invalid <~ (if negb (contains (chr "@") (email u)) then ret true
              else domain <~ getitem_last (split (chr "@") (email u));;
                   ret (negb (contains (chr ".") domain)));;
  if invalid then raise (ValueError (str "email appears invalid"))
  else ret tt.

(** [User.change_password] *)
Definition change_password (old_password new_password : pystr) : M bool :=
  u <~ get_self;;
  if negb (str_eq (_password u) old_password) then ret false
  else if len new_password <? 8
  then raise (ValueError (str "new_password must be at least 8 characters"))
  else put_self (set_password new_password u);; ret true.

(** [not self._cart]: [None] is false, a cart has its own truth value. *)
Definition not_cart : M bool :=
  u <~ get_self;;
  match _cart u with
  | None => ret true
  | Some l =>
      o <~ load l;;
      match o with
      | CartObj c => ret (negb (cart_bool c))
      | _ => ill_formed
      end
  end.

(** [self._cart.meth(...)] *)
Definition call_cart {A} (meth : string)
    (f : ShoppingCart -> (CollabError + A) * ShoppingCart) : M A :=
  u <~ get_self;;
  match _cart u with
  | None =>
      raise (AttributeError
               (str "'NoneType' object has no attribute '" ++ str meth ++ str "'"))
  | Some l =>
      o <~ load l;;
      match o with
      | CartObj c =>
          store l (CartObj (snd (f c)));;
          match fst (f c) with
          | inl e => raise (Foreign e)
          | inr a => ret a
          end
      | _ => ill_formed
      end
  end.

(** [User.add_to_cart] *)
Definition add_to_cart (candy : loc) (quantity : pyval) : M unit :=
  no_cart <~ not_cart;;
  (if no_cart
   then l <~ alloc (CartObj cart_new);;
        u <~ get_self;;
        put_self (set_cart (Some l) u)
   else ret tt);;
  call_cart "add_item" (fun c => add_item c candy quantity).

(** [xs.append(x)] on the list at [l] *)
Definition list_append (l : loc) (x : Order) : M unit :=
  o <~ load l;;
  match o with
  | ListObj xs => store l (ListObj (xs ++ [x]))
  | _ => ill_formed
  end.

(** [xs.copy()]: a new list object with the same items *)
Definition list_copy (l : loc) : M loc :=
  o <~ load l;;
  match o with
  | ListObj xs => alloc (ListObj xs)
  | _ => ill_formed
  end.

(** [User.checkout] *)
Definition checkout (payment_method : PaymentMethod) : M Order :=
  no_cart <~ not_cart;;
  if no_cart then raise (ValueError (str "Cart is empty"))
  else
    order <~ call_cart "create_order" (fun c => create_order c payment_method);;
    u <~ get_self;;
    list_append (_orders u) order;;
    call_cart "clear" clear;;
    ret order.

(** [User.get_orders] *)
Definition get_orders : M loc :=
  u <~ get_self;;
  list_copy (_orders u).

(** [User.get_cart] *)
Definition get_cart : M (option loc) :=
  u <~ get_self;;
  ret (_cart u).

(** [Staff.update_inventory]: [candy.quantity = new_quantity] *)
Definition update_inventory (candy : loc) (new_quantity : pyval) : M unit :=
  o <~ load candy;;
  match o with
  | CandyObj _ => store candy (CandyObj new_quantity)
  | _ => ill_formed
  end.

(** [Staff.view_sales_report] *)
Definition view_sales_report (orders : list Order) : M pystr :=
  match py_sum (map total_amount orders) with
  | None => raise (OverflowError (str "int too large to convert to float"))
  | Some total =>
      match format_2f total with
      | None => raise (OverflowError (str "int too large to convert to float"))
      | Some text => ret (str "Total sales: $" ++ text)
      end
  end.

(** *** Sequences of calls on one receiver *)

Inductive call :=
| Login (em pw : pystr)
| Validate
| ChangePassword (old_password new_password : pystr)
| AddToCart (candy : loc) (quantity : pyval)
| Checkout (payment_method : PaymentMethod)
| GetOrders
| GetCart
| UpdateInventory (candy : loc) (new_quantity : pyval)
| ViewSalesReport (orders : list Order).

Inductive value :=
| VNone
| VBool (b : bool)
| VStr (s : pystr)
| VOrder (o : Order)
| VRef (l : loc)
| VOptRef (l : option loc).

(** Attribute lookup of a method that only [Staff] defines. *)
Definition staff_method {A} (meth : string) (m : M A) : M A :=
  u <~ get_self;;
  match cls u with
  | StaffClass => m
  | UserClass =>
      raise (AttributeError
               (str "'User' object has no attribute '" ++ str meth ++ str "'"))
  end.

Definition invoke (c : call) : M value :=
  match c with
  | Login em pw => b <~ login em pw;; ret (VBool b)
  | Validate => validate;; ret VNone
  | ChangePassword o n => b <~ change_password o n;; ret (VBool b)
  | AddToCart candy q => add_to_cart candy q;; ret VNone
  | Checkout pm => o <~ checkout pm;; ret (VOrder o)
  | GetOrders => l <~ get_orders;; ret (VRef l)
  | GetCart => l <~ get_cart;; ret (VOptRef l)
  | UpdateInventory candy q =>
      staff_method "update_inventory" (update_inventory candy q);; ret VNone
  | ViewSalesReport orders =>
      s <~ staff_method "view_sales_report" (view_sales_report orders);;
      ret (VStr s)
  end.

(** A caller that makes the calls in order and handles whatever one of
    them raises before making the next. *)
Fixpoint run (cs : list call) (s : State) : option State :=
  match cs with
  | [] => Some s
  | c :: cs' =>
      match invoke c s with
      | Some (_, s') => run cs' s'
      | None => None
      end
  end.

End Methods.

(** ** A concrete shop, for running the layer

    An instance of the collaborators to run the scenarios on: carts are
    lists of (candy, quantity) lines and are plain objects, an order
    records its lines, the payment method and its total.  This cart
    refuses a quantity that is not a positive int, and refuses to make an
    order when it is empty. *)

Module Demo.

Inductive cart_error := BadQuantity | NothingToOrder.

Record order := mkOrder {
  lines : list (loc * Z);
  paid_with : pystr;
  total : number;
}.

Definition demo_add_item (c : list (loc * Z)) (candy : loc) (quantity : pyval)
    : (cart_error + unit) * list (loc * Z) :=
  match as_int quantity with
  | Some q => if 0 <? q then (inr tt, c ++ [(candy, q)])
              else (inl BadQuantity, c)
  | None => (inl BadQuantity, c)
  end.

Definition demo_create_order (c : list (loc * Z)) (pm : pystr)
    : (cart_error + order) * list (loc * Z) :=
  match c with
  | [] => (inl NothingToOrder, c)
  | _ => (inr (mkOrder c pm (NInt (foldr (fun l acc => snd l + acc) 0 c))), c)
  end.

#[local] Instance shop : Collaborators := {|
  PaymentMethod := pystr;
  Order := order;
  ShoppingCart := list (loc * Z);
  CollabError := cart_error;
  cart_new := [];
  cart_bool := fun _ => true;
  add_item := demo_add_item;
  create_order := demo_create_order;
  clear := fun _ => (inr tt, []);
  total_amount := total;
|}.

(** The user of the scenario, created in an empty heap. *)
Definition ann : State :=
  User_init (PyInt 1) (PyStr (str "Ann")) (str "a@b.com") (str "secret123") ∅.

(** A staff member, in a heap with one candy in stock. *)
Definition bob : State :=
  Staff_init (PyInt 2) (PyStr (str "Bob")) (str "bob@candy.shop")
    (str "hunter2hunter2") (str "manager") {[ 1%positive := CandyObj (PyInt 7) ]}.

(** An order with a given total. *)
Definition order_of (amount : number) : order := mkOrder [] (str "cash") amount.

(** Ann after putting two pieces of candy 5 into her cart. *)
Definition ann_shopping : State :=
  default ann (run [AddToCart 5%positive (PyInt 2)] ann).

(** A user whose email has no dot after the "@". *)
Definition dan : State :=
  User_init (PyInt 3) (PyStr (str "Dan")) (str "a@b") (str "password1") ∅.

End Demo.

(** ** A shop whose carts have a length

    The same shop with a cart class that defines [__len__]: an empty cart
    then tests false. *)

Module Sized.

#[local] Instance shop : Collaborators := {|
  PaymentMethod := pystr;
  Order := Demo.order;
  ShoppingCart := list (loc * Z);
  CollabError := Demo.cart_error;
  cart_new := [];
  cart_bool := fun c => match c with [] => false | _ :: _ => true end;
  add_item := Demo.demo_add_item;
  create_order := Demo.demo_create_order;
  clear := fun _ => (inr tt, []);
  total_amount := Demo.total;
|}.

Definition eve : State :=
  User_init (PyInt 4) (PyStr (str "Eve")) (str "eve@candy.shop")
    (str "password4") ∅.

End Sized.

(** ** Predicates used in the statements *)

(** The id is an int (a bool counts, as for [isinstance]) and not negative. *)
Definition nonneg_int (v : pyval) : Prop :=
  exists z, as_int v = Some z /\ 0 <= z.

(** The name is a string with a character that is not white space. *)
Definition nonblank_str (v : pyval) : Prop :=
  exists s c, v = PyStr s /\ (c ∈ s) /\ isspace c = false.

(** The email has an "@", and the text after its last "@" has a ".". *)
Definition dotted_domain (e : pystr) : Prop :=
  exists pre domain,
    e = pre ++ chr "@" :: domain /\ (chr "@" ∉ domain) /\ (chr "." ∈ domain).

(** The messages of the three checks of [validate]. *)
Definition validation_messages : list pystr :=
  [str "person_id must be a non-negative int";
   str "name must be a non-empty string";
   str "email appears invalid"].

Section Shape.

Context `{shop : Collaborators}.

(** The receiver's references point to objects of the right class: the
    history to a list, the cart (when there is one) to a cart. *)
Definition wf (s : State) : bool :=
  match heap s !! _orders (self s) with
  | Some (ListObj _) =>
      match _cart (self s) with
      | None => true
      | Some l => match heap s !! l with
                  | Some (CartObj _) => true
                  | _ => false
                  end
      end
  | _ => false
  end.

(** The order history, read through the receiver's reference. *)
Definition history (s : State) : option (list Order) :=
  match heap s !! _orders (self s) with
  | Some (ListObj xs) => Some xs
  | _ => None
  end.

(** The list object at a location. *)
Definition items_at (l : loc) (s : State) : option (list Order) :=
  match heap s !! l with
  | Some (ListObj xs) => Some xs
  | _ => None
  end.

(** The cart object at a location. *)
Definition cart_at (l : loc) (s : State) : option ShoppingCart :=
  match heap s !! l with
  | Some (CartObj c) => Some c
  | _ => None
  end.

(** A caller that holds a reference to a list replaces its contents
    (append, remove, clear, sort, ...). *)
Definition mutate_list (l : loc) (ys : list Order) (s : State) : State :=
  mkState (self s) (<[l := ListObj ys]> (heap s)).

(** How the result of a collaborator's method reaches the caller. *)
Definition outcome_of {A} (r : CollabError + A) : outcome A :=
  match r with
  | inl e => Raised (Foreign e)
  | inr a => Returned a
  end.

(** The heap after a checkout that got as far as appending the order. *)
Definition after_checkout (s : State) (l : loc) (xs : list Order)
    (o : Order) (c' : ShoppingCart) : State :=
  mkState (self s)
    (<[l := CartObj c']> (<[_orders (self s) := ListObj (xs ++ [o])]> (heap s))).

(** The class of a heap object. *)
Inductive obj_kind := ListKind | CartKind | CandyKind.

Definition kind_of (o : obj) : obj_kind :=
  match o with
  | ListObj _ => ListKind
  | CartObj _ => CartKind
  | CandyObj _ => CandyKind
  end.

(** Every object of [h] is still there in [h'], with the same class. *)
Definition heap_grows (h h' : gmap loc obj) : Prop :=
  forall l o, h !! l = Some o ->
    exists o', h' !! l = Some o' /\ kind_of o' = kind_of o.

(** What no method changes: the identity fields, the class, the history
    reference and the verification flag; and objects keep their class. *)
Definition preserved (s s' : State) : Prop :=
  heap_grows (heap s) (heap s') /\
  cls (self s') = cls (self s) /\
  person_id (self s') = person_id (self s) /\
  name (self s') = name (self s) /\
  email (self s') = email (self s) /\
  _orders (self s') = _orders (self s) /\
  email_verified (self s') = email_verified (self s) /\
  position (self s') = position (self s).

Definition is_candy (h : gmap loc obj) (l : loc) : bool :=
  match h !! l with
  | Some (CandyObj _) => true
  | _ => false
  end.

(** The candy of every [update_inventory] call is a candy of the heap. *)
Definition call_typed (h : gmap loc obj) (c : call) : bool :=
  match c with
  | UpdateInventory candy _ => is_candy h candy
  | _ => true
  end.

Definition cart_call (c : call) : bool :=
  match c with
  | AddToCart _ _ | Checkout _ => true
  | _ => false
  end.

Definition is_add_to_cart (c : call) : bool :=
  match c with
  | AddToCart _ _ => true
  | _ => false
  end.



End Shape.

(** ** Facts about strings *)

Section StringFacts.

Lemma str_eq_true (a b : pystr) : str_eq a b = true <-> a = b.
Proof. unfold str_eq. apply bool_decide_eq_true. Qed.

Lemma str_eq_false (a b : pystr) : str_eq a b = false <-> a <> b.
Proof. unfold str_eq. apply bool_decide_eq_false. Qed.

Lemma contains_elem (c : codepoint) (s : pystr) :
  contains c s = true <-> c ∈ s.
Proof.
  unfold contains. rewrite existsb_exists. split.
  - intros (x & Hin & Heq). apply N.eqb_eq in Heq. subst x.
    now apply list_elem_of_In.
  - intros Hin. exists c. split; [now apply list_elem_of_In | apply N.eqb_refl].
Qed.

Lemma lstrip_nil (s : pystr) : lstrip s = [] <-> forallb isspace s = true.
Proof.
  induction s as [|c s IH]; simpl; [tauto|].
  destruct (isspace c); simpl; [exact IH|]. split; discriminate.
Qed.

Lemma forallb_lstrip (s : pystr) :
  forallb isspace (lstrip s) = forallb isspace s.
Proof.
  induction s as [|c s IH]; simpl; [reflexivity|].
  destruct (isspace c) eqn:E; simpl; [exact IH | now rewrite E].
Qed.

Lemma forallb_rev (s : pystr) :
  forallb isspace (rev s) = forallb isspace s.
Proof.
  induction s as [|c s IH]; simpl; [reflexivity|].
  rewrite forallb_app, IH. simpl. rewrite andb_true_r. apply andb_comm.
Qed.

(** Stripping leaves nothing exactly when every character is white space. *)
Lemma strip_nil (s : pystr) : strip s = [] <-> forallb isspace s = true.
Proof.
  unfold strip, rstrip.
  rewrite <- (forallb_lstrip s), <- (forallb_rev (lstrip s)), <- lstrip_nil.
  split; intros H.
  - apply (f_equal (@rev codepoint)) in H. now rewrite rev_involutive in H.
  - now rewrite H.
Qed.

Lemma truthy_strip (s : pystr) :
  truthy (strip s) = true <-> exists c, (c ∈ s) /\ isspace c = false.
Proof.
  split.
  - intros H. destruct (forallb isspace s) eqn:E.
    + apply strip_nil in E. rewrite E in H. discriminate.
    + apply not_true_iff_false in E.
      rewrite forallb_forall in E.
      destruct (existsb (fun c => negb (isspace c)) s) eqn:X.
      * apply existsb_exists in X as (c & Hin & Hc).
        exists c. split; [now apply list_elem_of_In|].
        now apply negb_true_iff.
      * exfalso. apply E. intros c Hin.
        destruct (isspace c) eqn:Hc; [reflexivity|].
        assert (existsb (fun c => negb (isspace c)) s = true) as Y
          by (apply existsb_exists; exists c; now rewrite Hc).
        congruence.
  - intros (c & Hin & Hc).
    destruct (strip s) eqn:E; [|reflexivity].
    apply strip_nil in E. rewrite forallb_forall in E.
    apply list_elem_of_In in Hin. specialize (E c Hin). congruence.
Qed.

Lemma split_no_sep (sep : codepoint) (s : pystr) :
  sep ∉ s -> split sep s = [s].
Proof.
  induction s as [|c s IH]; intros Hn; simpl; [reflexivity|].
  apply not_elem_of_cons in Hn as [Hc Hs].
  destruct (N.eqb_spec c sep) as [->|_]; [congruence|].
  now rewrite (IH Hs).
Qed.

Lemma split_at_sep (sep : codepoint) (pre suf : pystr) :
  exists p ps, split sep (pre ++ sep :: suf) = (p :: ps) ++ split sep suf.
Proof.
  induction pre as [|c pre (p & ps & IH)]; simpl.
  - rewrite N.eqb_refl. now exists [], [].
  - destruct (c =? sep)%N.
    + exists [], (p :: ps). now rewrite IH.
    + rewrite IH. simpl. now exists (c :: p), ps.
Qed.

(** The last piece of a split is the text after the last separator. *)
Lemma last_split (sep : codepoint) (pre suf : pystr) :
  sep ∉ suf -> last (split sep (pre ++ sep :: suf)) = Some suf.
Proof.
  intros Hn. destruct (split_at_sep sep pre suf) as (p & ps & ->).
  rewrite (split_no_sep _ _ Hn). apply last_snoc.
Qed.

Lemma last_occurrence (c : codepoint) (s : pystr) :
  c ∈ s -> exists pre suf, s = pre ++ c :: suf /\ (c ∉ suf).
Proof. apply list_elem_of_split_r. Qed.

End StringFacts.

(** ** Authentication and validation *)

Ltac unfold_m :=
  unfold bind, ret, raise, get_self, put_self, load, store, alloc, ill_formed in *.

Section Credentials.

Context `{shop : Collaborators}.

Lemma nonneg_int_dec (v : pyval) :
  match as_int v with None => true | Some z => z <? 0 end = false
  <-> nonneg_int v.
Proof.
  unfold nonneg_int. destruct (as_int v) as [z|].
  - rewrite Z.ltb_ge. split.
    + intros Hz. now exists z.
    + intros (z' & [= <-] & Hz). exact Hz.
  - split; [discriminate|]. now intros (z & [=] & _).
Qed.

Lemma nonblank_str_dec (v : pyval) :
  match as_str v with None => true | Some s => negb (truthy (strip s)) end = false
  <-> nonblank_str v.
Proof.
  unfold nonblank_str. destruct v as [| | | |s]; simpl;
    try (split; [discriminate | now intros (s' & c & [=] & _)]).
  rewrite negb_false_iff, truthy_strip. split.
  - intros (c & Hin & Hc). now exists s, c.
  - intros (s' & c & [= <-] & Hin & Hc). now exists c.
Qed.

Lemma dotted_domain_dec (e : pystr) :
  dotted_domain e <->
  contains (chr "@") e = true /\
  exists d, last (split (chr "@") e) = Some d /\ contains (chr ".") d = true.
Proof.
  unfold dotted_domain. split.
  - intros (pre & d & -> & Hat & Hdot). split.
    + apply contains_elem, elem_of_app. right. apply elem_of_cons. now left.
    + exists d. split; [now apply last_split | now apply contains_elem].
  - intros (Hat & d & Hlast & Hdot).
    apply contains_elem, last_occurrence in Hat as (pre & suf & -> & Hn).
    rewrite (last_split _ _ _ Hn) in Hlast. injection Hlast as <-.
    exists pre, suf. repeat split; [exact Hn | now apply contains_elem].
Qed.

(** [validate] returns exactly on the valid records, raises
    [ValueError] on the others, and never changes the state. *)
Lemma validate_cases (s : State) :
  (validate s = Some (Returned tt, s) /\
   nonneg_int (person_id (self s)) /\ nonblank_str (name (self s)) /\
   dotted_domain (email (self s)))
  \/
  (exists msg, In msg validation_messages /\
   validate s = Some (Raised (ValueError msg), s) /\
   ~ (nonneg_int (person_id (self s)) /\ nonblank_str (name (self s)) /\
      dotted_domain (email (self s)))).
Proof.
  unfold validate. unfold_m.
  destruct (match as_int (person_id (self s)) with
            | None => true | Some z => z <? 0 end) eqn:Hid.
  { right. exists (str "person_id must be a non-negative int").
    split; [now left|]. split; [reflexivity|].
    intros (H & _). apply nonneg_int_dec in H. congruence. }
  apply nonneg_int_dec in Hid.
  destruct (match as_str (name (self s)) with
            | None => true | Some s0 => negb (truthy (strip s0)) end) eqn:Hname.
  { right. exists (str "name must be a non-empty string").
    split; [right; now left|]. split; [reflexivity|].
    intros (_ & H & _). apply nonblank_str_dec in H. congruence. }
  apply nonblank_str_dec in Hname.
  destruct (contains (chr "@") (email (self s))) eqn:Hat; cbn [negb].
  2:{ right. exists (str "email appears invalid").
      split; [right; right; now left|]. split; [reflexivity|].
      intros (_ & _ & H). apply dotted_domain_dec in H as (H & _). congruence. }
  unfold getitem_last. unfold_m.
  destruct (last (split (chr "@") (email (self s)))) as [d|] eqn:Hlast.
  2:{ exfalso. apply contains_elem, last_occurrence in Hat as (pre & suf & E & Hn).
      rewrite E, (last_split _ _ _ Hn) in Hlast. discriminate. }
  destruct (contains (chr ".") d) eqn:Hdot; cbn [negb].
  - left. split; [reflexivity|]. split; [assumption|]. split; [assumption|].
    apply dotted_domain_dec. split; [exact Hat|]. now exists d.
  - right. exists (str "email appears invalid").
    split; [right; right; now left|]. split; [reflexivity|].
    intros (_ & _ & H). apply dotted_domain_dec in H as (_ & d' & Hd' & Hc).
    congruence.
Qed.

Lemma login_run (s : State) (em pw : pystr) :
  login em pw s =
    Some (Returned (str_eq (email (self s)) em && str_eq (_password (self s)) pw), s).
Proof. reflexivity. Qed.

(** C7: [login(email, password)] returns true exactly when both arguments
    equal the stored email and password, code point by code point; on any
    mismatch it returns false; it never raises and leaves the state as it
    was. *)
Theorem login_exact_match (s : State) (em pw : pystr) :
  exists b : bool,
    login em pw s = Some (Returned b, s) /\
    (b = true <-> email (self s) = em /\ _password (self s) = pw) /\
    (b = false <-> email (self s) <> em \/ _password (self s) <> pw).
Proof.
  exists (str_eq (email (self s)) em && str_eq (_password (self s)) pw).
  split; [apply login_run|]. split.
  - now rewrite andb_true_iff, !str_eq_true.
  - now rewrite andb_false_iff, !str_eq_false.
Qed.

(** C1: [change_password(old, new)] with a wrong [old] returns false and
    changes nothing, whatever the length of [new]; with the right [old]
    and a [new] shorter than 8 characters it raises the validation error
    and changes nothing; with the right [old] and a [new] of at least 8
    characters it returns true, stores [new] and nothing else, and
    afterwards [login] with the email succeeds with [new] and with no
    other password. *)
Theorem change_password_cases (s : State) (old new : pystr) :
  (old <> _password (self s) ->
     change_password old new s = Some (Returned false, s)) /\
  (old = _password (self s) -> len new < 8 ->
     change_password old new s =
       Some (Raised (ValueError (str "new_password must be at least 8 characters")), s)) /\
  (old = _password (self s) -> 8 <= len new ->
     let s' := mkState (set_password new (self s)) (heap s) in
     change_password old new s = Some (Returned true, s') /\
     _password (self s') = new /\
     login (email (self s)) new s' = Some (Returned true, s') /\
     (old <> new -> login (email (self s)) old s' = Some (Returned false, s')) /\
     (forall pw, login (email (self s)) pw s' = Some (Returned true, s') -> pw = new)).
Proof.
  assert (forall p : pystr, str_eq p p = true) as Hrefl
    by (intros p; now apply str_eq_true).
  unfold change_password. unfold_m. split; [|split].
  - intros Hne. apply not_eq_sym, str_eq_false in Hne. now rewrite Hne.
  - intros -> Hlen. apply Z.ltb_lt in Hlen.
    rewrite Hrefl. cbn [negb]. now rewrite Hlen.
  - intros -> Hlen. apply Z.ltb_ge in Hlen.
    rewrite Hrefl. cbn [negb]. rewrite Hlen.
    unfold login. unfold_m. cbn [self email _password set_password].
    rewrite !Hrefl. repeat split.
    + intros Hne. apply not_eq_sym, str_eq_false in Hne. now rewrite Hne.
    + intros pw [= Hb]. now apply str_eq_true in Hb.
Qed.

(** C5: [validate()] returns normally whenever the id is a non-negative
    int, the name a string that is not blank and the email has an "@"
    with a "." in the text after its last "@"; it raises the validation
    error whenever one of the three fails; in both cases it reads the
    fields as they are at the call and changes nothing.  So "a@b.com" is
    a valid email and "a@b" is not. *)
Theorem validate_accepts_exactly (s : State) :
  (nonneg_int (person_id (self s)) /\ nonblank_str (name (self s)) /\
   dotted_domain (email (self s)) ->
     validate s = Some (Returned tt, s)) /\
  (~ (nonneg_int (person_id (self s)) /\ nonblank_str (name (self s)) /\
      dotted_domain (email (self s))) ->
     exists msg, validate s = Some (Raised (ValueError msg), s)) /\
  dotted_domain (str "a@b.com") /\ ~ dotted_domain (str "a@b").
Proof.
  repeat split.
  - intros Hv. destruct (validate_cases s) as [(H & _)|(msg & _ & _ & Hn)];
      [exact H | contradiction].
  - intros Hn. destruct (validate_cases s) as [(_ & Hv)|(msg & _ & H & _)];
      [contradiction | now exists msg].
  - apply dotted_domain_dec. split; [reflexivity|].
    eexists. split; reflexivity.
  - intros H. apply dotted_domain_dec in H as (_ & d & Hd & Hc).
    vm_compute in Hd. injection Hd as <-. discriminate.
Qed.

End Credentials.

(** ** The equations of the cart and history methods *)

Section Equations.

Context `{shop : Collaborators}.

Lemma wf_shape (s : State) :
  wf s = true ->
  (exists xs, heap s !! _orders (self s) = Some (ListObj xs)) /\
  (forall l, _cart (self s) = Some l ->
             exists c, heap s !! l = Some (CartObj c)).
Proof.
  unfold wf. intros H.
  destruct (heap s !! _orders (self s)) as [[xs| |]|] eqn:Ho; try discriminate.
  split; [now exists xs|]. intros l Hl. rewrite Hl in H.
  destruct (heap s !! l) as [[|c|]|]; try discriminate. now exists c.
Qed.

Lemma wf_intro (s : State) (xs : list Order) :
  heap s !! _orders (self s) = Some (ListObj xs) ->
  (forall l, _cart (self s) = Some l ->
             exists c, heap s !! l = Some (CartObj c)) ->
  wf s = true.
Proof.
  unfold wf. intros -> Hc. destruct (_cart (self s)) as [l|]; [|reflexivity].
  destruct (Hc l eq_refl) as (c & ->). reflexivity.
Qed.

Lemma not_cart_none (s : State) :
  _cart (self s) = None -> not_cart s = Some (Returned true, s).
Proof. unfold not_cart. unfold_m. now intros ->. Qed.

Lemma not_cart_some (s : State) (l : loc) (c : ShoppingCart) :
  _cart (self s) = Some l -> heap s !! l = Some (CartObj c) ->
  not_cart s = Some (Returned (negb (cart_bool c)), s).
Proof. unfold not_cart. unfold_m. now intros -> ->. Qed.

Lemma call_cart_some {A} (meth : string)
    (f : ShoppingCart -> (CollabError + A) * ShoppingCart)
    (s : State) (l : loc) (c : ShoppingCart) :
  _cart (self s) = Some l -> heap s !! l = Some (CartObj c) ->
  call_cart meth f s =
    Some (outcome_of (fst (f c)),
          mkState (self s) (<[l := CartObj (snd (f c))]> (heap s))).
Proof.
  unfold call_cart. unfold_m. intros -> ->. cbn [self heap].
  now destruct (fst (f c)).
Qed.

(** With no cart, or with a cart that tests false, [add_to_cart] makes a
    new cart at a location the heap did not have, and adds to it. *)
Lemma add_to_cart_new (s : State) (candy : loc) (q : pyval) :
  not_cart s = Some (Returned true, s) ->
  let l := fresh (dom (heap s)) in
  add_to_cart candy q s =
    Some (outcome_of (fst (add_item cart_new candy q)),
          mkState (set_cart (Some l) (self s))
                  (<[l := CartObj (snd (add_item cart_new candy q))]> (heap s))).
Proof.
  intros Hn l. unfold add_to_cart, bind at 1. rewrite Hn.
  unfold bind at 1. unfold bind at 1. unfold alloc at 1. fold l.
  unfold bind at 1. unfold get_self at 1. unfold put_self at 1.
  cbn [self heap].
  erewrite call_cart_some; cbn [self heap set_cart _cart];
    [|reflexivity|apply lookup_insert_eq].
  now rewrite insert_insert_eq.
Qed.

(** With a cart that tests true, [add_to_cart] adds to that cart. *)
Lemma add_to_cart_existing (s : State) (candy : loc) (q : pyval)
    (l : loc) (c : ShoppingCart) :
  _cart (self s) = Some l -> heap s !! l = Some (CartObj c) ->
  cart_bool c = true ->
  add_to_cart candy q s =
    Some (outcome_of (fst (add_item c candy q)),
          mkState (self s)
                  (<[l := CartObj (snd (add_item c candy q))]> (heap s))).
Proof.
  intros Hl Hc Hb. unfold add_to_cart, bind at 1.
  rewrite (not_cart_some s l c Hl Hc), Hb. cbn [negb].
  unfold bind at 1. unfold ret at 1.
  exact (call_cart_some "add_item" (fun c0 => add_item c0 candy q) s l c Hl Hc).
Qed.

Lemma checkout_refused (s : State) (pm : PaymentMethod) :
  not_cart s = Some (Returned true, s) ->
  checkout pm s = Some (Raised (ValueError (str "Cart is empty")), s).
Proof. intros Hn. unfold checkout, bind at 1. now rewrite Hn. Qed.

Lemma checkout_existing (s : State) (pm : PaymentMethod)
    (l : loc) (c : ShoppingCart) (xs : list Order) :
  _cart (self s) = Some l -> heap s !! l = Some (CartObj c) ->
  cart_bool c = true ->
  heap s !! _orders (self s) = Some (ListObj xs) ->
  checkout pm s =
    match create_order c pm with
    | (inl e, c1) =>
        Some (Raised (Foreign e), mkState (self s) (<[l := CartObj c1]> (heap s)))
    | (inr o, c1) =>
        match clear c1 with
        | (inl e, c2) => Some (Raised (Foreign e), after_checkout s l xs o c2)
        | (inr _, c2) => Some (Returned o, after_checkout s l xs o c2)
        end
    end.
Proof.
  intros Hl Hc Hb Ho.
  assert (l <> _orders (self s)) as Hne by congruence.
  unfold checkout, bind at 1.
  rewrite (not_cart_some s l c Hl Hc), Hb. cbn [negb].
  unfold bind at 1. rewrite (call_cart_some _ _ s l c Hl Hc).
  destruct (create_order c pm) as [[e|o] c1]; cbn [fst snd outcome_of];
    [reflexivity|].
  unfold bind at 1. unfold get_self at 1. cbn [self heap].
  unfold bind at 1. unfold list_append, bind at 1, load at 1. cbn [self heap].
  rewrite lookup_insert_ne, Ho by exact Hne.
  unfold store at 1. cbn [self heap].
  unfold bind at 1.
  erewrite call_cart_some; cbn [self heap];
    [|exact Hl|rewrite lookup_insert_ne by congruence; apply lookup_insert_eq].
  unfold after_checkout.
  rewrite (insert_insert_ne (heap s) (_orders (self s)) l) by congruence.
  rewrite insert_insert_eq.
  destruct (clear c1) as [[e|[]] c2]; cbn [fst snd outcome_of]; reflexivity.
Qed.

Lemma get_orders_run (s : State) (xs : list Order) :
  heap s !! _orders (self s) = Some (ListObj xs) ->
  let l := fresh (dom (heap s)) in
  get_orders s =
    Some (Returned l, mkState (self s) (<[l := ListObj xs]> (heap s))).
Proof.
  intros Ho l. unfold get_orders, list_copy. unfold_m. now rewrite Ho.
Qed.

Lemma update_inventory_run (s : State) (candy : loc) (q : pyval) :
  is_candy (heap s) candy = true ->
  update_inventory candy q s =
    Some (Returned tt, mkState (self s) (<[candy := CandyObj q]> (heap s))).
Proof.
  unfold is_candy, update_inventory. unfold_m.
  destruct (heap s !! candy) as [[| |v]|]; try discriminate. reflexivity.
Qed.

Lemma view_sales_report_pure (orders : list Order) (s : State) :
  exists r, view_sales_report orders s = Some (r, s).
Proof.
  unfold view_sales_report. unfold_m.
  destruct (py_sum _) as [t|]; [|eauto].
  destruct (format_2f t); eauto.
Qed.

Lemma fresh_not_allocated (h : gmap loc obj) : h !! fresh (dom h) = None.
Proof. apply not_elem_of_dom, is_fresh. Qed.

End Equations.

(** ** What every call preserves *)

Section Frame.

Context `{shop : Collaborators}.

Lemma heap_grows_refl (h : gmap loc obj) : heap_grows h h.
Proof. intros l o H. now exists o. Qed.

Lemma heap_grows_trans (h1 h2 h3 : gmap loc obj) :
  heap_grows h1 h2 -> heap_grows h2 h3 -> heap_grows h1 h3.
Proof.
  intros H12 H23 l o H. destruct (H12 l o H) as (o2 & H2 & K2).
  destruct (H23 l o2 H2) as (o3 & H3 & K3). exists o3. split; congruence.
Qed.

Lemma heap_grows_alloc (h : gmap loc obj) (l : loc) (o : obj) :
  h !! l = None -> heap_grows h (<[l := o]> h).
Proof.
  intros Hl k o' Hk. exists o'. split; [|reflexivity].
  rewrite lookup_insert_ne; [exact Hk | congruence].
Qed.

Lemma heap_grows_update (h : gmap loc obj) (l : loc) (o o' : obj) :
  h !! l = Some o -> kind_of o' = kind_of o -> heap_grows h (<[l := o']> h).
Proof.
  intros Hl Hk k ok Hok. destruct (decide (l = k)) as [<-|Hne].
  - exists o'. rewrite lookup_insert_eq. split; congruence.
  - exists ok. rewrite lookup_insert_ne by exact Hne. now split.
Qed.

Lemma wf_grows (u : UserObj) (h h' : gmap loc obj) :
  heap_grows h h' -> wf (mkState u h) = true -> wf (mkState u h') = true.
Proof.
  intros Hg Hwf. apply wf_shape in Hwf as ((xs & Ho) & Hc). cbn [self heap] in *.
  destruct (Hg _ _ Ho) as ([xs'| |] & Ho' & K); try discriminate.
  apply (wf_intro _ xs'); cbn [self heap]; [exact Ho'|].
  intros l Hl. destruct (Hc l Hl) as (c & Hcl).
  destruct (Hg _ _ Hcl) as ([|c'|] & Hc' & K'); try discriminate. now exists c'.
Qed.

Lemma is_candy_grows (h h' : gmap loc obj) (l : loc) :
  heap_grows h h' -> is_candy h l = true -> is_candy h' l = true.
Proof.
  unfold is_candy. intros Hg H.
  destruct (h !! l) as [[| |v]|] eqn:E; try discriminate.
  destruct (Hg _ _ E) as ([| |v'] & -> & K); try discriminate. reflexivity.
Qed.

Lemma preserved_refl (s : State) : preserved s s.
Proof. unfold preserved. repeat split. apply heap_grows_refl. Qed.

Lemma preserved_trans (s1 s2 s3 : State) :
  preserved s1 s2 -> preserved s2 s3 -> preserved s1 s3.
Proof.
  unfold preserved. intros (G1 & ?) (G2 & ?). split.
  - eapply heap_grows_trans; eassumption.
  - intuition congruence.
Qed.

(** A state with the same receiver fields and a heap that grew. *)
Lemma preserved_heap (s : State) (h' : gmap loc obj) :
  heap_grows (heap s) h' -> preserved s (mkState (self s) h').
Proof. unfold preserved. cbn [self heap]. intros G. repeat split. exact G. Qed.

Lemma wf_preserved_same_cart (s s' : State) :
  preserved s s' -> _cart (self s') = _cart (self s) ->
  wf s = true -> wf s' = true.
Proof.
  intros (G & _ & _ & _ & _ & Ho & _) Hc Hwf.
  apply wf_shape in Hwf as ((xs & Hxs) & Hcart).
  destruct (G _ _ Hxs) as ([xs'| |] & Hxs' & K); try discriminate.
  apply (wf_intro _ xs'); [now rewrite Ho|].
  intros l Hl. rewrite Hc in Hl. destruct (Hcart l Hl) as (c & Hcl).
  destruct (G _ _ Hcl) as ([|c'|] & Hc' & K'); try discriminate. now exists c'.
Qed.

End Frame.

Section Steps.

Context `{shop : Collaborators}.

Lemma bind_ret_state {A B} (m : M A) (f : A -> B) (s s' : State) (r : outcome B) :
  bind m (fun x => ret (f x)) s = Some (r, s') ->
  exists r0, m s = Some (r0, s').
Proof.
  unfold bind, ret. destruct (m s) as [[[a|e] s0]|]; intros [= <- <-]; eauto.
Qed.

Lemma bind_ret_total {A B} (m : M A) (f : A -> B) (s s' : State) (r0 : outcome A) :
  m s = Some (r0, s') ->
  exists r, bind m (fun x => ret (f x)) s = Some (r, s').
Proof. unfold bind, ret. intros ->. destruct r0; eauto. Qed.

Lemma staff_method_cases {A} (meth : string) (m : M A) (s s' : State)
    (r : outcome A) :
  staff_method meth m s = Some (r, s') ->
  s' = s \/ m s = Some (r, s').
Proof.
  unfold staff_method. unfold_m. destruct (cls (self s)).
  - intros [= _ <-]. now left.
  - intros H. now right.
Qed.

Lemma new_cart_ok (s : State) (c : ShoppingCart) :
  wf s = true ->
  let s' := mkState (set_cart (Some (fresh (dom (heap s)))) (self s))
                    (<[fresh (dom (heap s)) := CartObj c]> (heap s)) in
  preserved s s' /\ wf s' = true.
Proof.
  intros Hwf s'. pose proof (fresh_not_allocated (heap s)) as Hf.
  apply wf_shape in Hwf as ((xs & Hxs) & _).
  split.
  - unfold preserved, s'. cbn [self heap set_cart cls person_id name email
      _orders email_verified position]. repeat split.
    now apply heap_grows_alloc.
  - apply (wf_intro _ xs); unfold s'; cbn [self heap set_cart _orders _cart].
    + rewrite lookup_insert_ne; [exact Hxs | congruence].
    + intros l [= <-]. exists c. apply lookup_insert_eq.
Qed.

Lemma cart_update_ok (s : State) (l : loc) (c c' : ShoppingCart) :
  wf s = true -> heap s !! l = Some (CartObj c) ->
  let s' := mkState (self s) (<[l := CartObj c']> (heap s)) in
  preserved s s' /\ wf s' = true.
Proof.
  intros Hwf Hc s'.
  assert (preserved s s') as P
    by (apply preserved_heap; now apply (heap_grows_update _ _ (CartObj c))).
  split; [exact P|]. now apply (wf_preserved_same_cart s).
Qed.

Lemma after_checkout_ok (s : State) (l : loc) (c c' : ShoppingCart)
    (xs : list Order) (o : Order) :
  wf s = true -> heap s !! l = Some (CartObj c) ->
  heap s !! _orders (self s) = Some (ListObj xs) ->
  preserved s (after_checkout s l xs o c') /\
  wf (after_checkout s l xs o c') = true.
Proof.
  intros Hwf Hc Ho.
  assert (preserved s (after_checkout s l xs o c')) as P.
  { apply preserved_heap.
    eapply heap_grows_trans.
    - now apply (heap_grows_update _ (_orders (self s)) (ListObj xs)
                   (ListObj (xs ++ [o]))).
    - apply (heap_grows_update _ l (CartObj c)); [|reflexivity].
      rewrite lookup_insert_ne; [exact Hc | congruence]. }
  split; [exact P|]. now apply (wf_preserved_same_cart s).
Qed.

Lemma add_to_cart_sound (s s' : State) (candy : loc) (q : pyval)
    (r : outcome unit) :
  wf s = true -> add_to_cart candy q s = Some (r, s') ->
  preserved s s' /\ wf s' = true /\ _cart (self s') <> None /\
  (forall l c, _cart (self s) = Some l -> cart_at l s = Some c ->
               cart_bool c = true -> _cart (self s') = Some l).
Proof.
  intros Hwf H. pose proof (wf_shape s Hwf) as (_ & Hcart).
  destruct (_cart (self s)) as [l|] eqn:Hl.
  - destruct (Hcart l eq_refl) as (c & Hc).
    destruct (cart_bool c) eqn:Hb.
    + rewrite (add_to_cart_existing s candy q l c Hl Hc Hb) in H.
      injection H as _ <-.
      destruct (cart_update_ok s l c (snd (add_item c candy q)) Hwf Hc) as (P & W).
      refine (conj P (conj W (conj _ _))); cbn [self]; rewrite Hl.
      * discriminate.
      * now intros l' c' [= <-] _ _.
    + pose proof (not_cart_some s l c Hl Hc) as Hn. rewrite Hb in Hn.
      rewrite (add_to_cart_new s candy q Hn) in H. injection H as _ <-.
      destruct (new_cart_ok s (snd (add_item cart_new candy q)) Hwf) as (P & W).
      refine (conj P (conj W (conj _ _))); cbn [self set_cart _cart].
      * discriminate.
      * intros l' c' [= <-] Hc' Hb'. unfold cart_at in Hc'. rewrite Hc in Hc'.
        congruence.
  - rewrite (add_to_cart_new s candy q (not_cart_none s Hl)) in H.
    injection H as _ <-.
    destruct (new_cart_ok s (snd (add_item cart_new candy q)) Hwf) as (P & W).
    refine (conj P (conj W (conj _ _))); cbn [self set_cart _cart].
    + discriminate.
    + intros l c [=].
Qed.

Lemma add_to_cart_total (s : State) (candy : loc) (q : pyval) :
  wf s = true -> exists r s', add_to_cart candy q s = Some (r, s').
Proof.
  intros Hwf. pose proof (wf_shape s Hwf) as (_ & Hcart).
  destruct (_cart (self s)) as [l|] eqn:Hl.
  - destruct (Hcart l eq_refl) as (c & Hc).
    destruct (cart_bool c) eqn:Hb.
    + rewrite (add_to_cart_existing s candy q l c Hl Hc Hb). eauto.
    + pose proof (not_cart_some s l c Hl Hc) as Hn. rewrite Hb in Hn.
      rewrite (add_to_cart_new s candy q Hn). eauto.
  - rewrite (add_to_cart_new s candy q (not_cart_none s Hl)). eauto.
Qed.

Lemma checkout_sound (s s' : State) (pm : PaymentMethod) (r : outcome Order) :
  wf s = true -> checkout pm s = Some (r, s') ->
  preserved s s' /\ wf s' = true /\ _cart (self s') = _cart (self s).
Proof.
  intros Hwf H. pose proof (wf_shape s Hwf) as ((xs & Hxs) & Hcart).
  destruct (_cart (self s)) as [l|] eqn:Hl.
  - destruct (Hcart l eq_refl) as (c & Hc).
    destruct (cart_bool c) eqn:Hb.
    + rewrite (checkout_existing s pm l c xs Hl Hc Hb Hxs) in H.
      destruct (create_order c pm) as [[e|o] c1].
      * injection H as _ <-.
        destruct (cart_update_ok s l c c1 Hwf Hc) as (P & W).
        refine (conj P (conj W _)). cbn [self]. exact Hl.
      * destruct (after_checkout_ok s l c (snd (clear c1)) xs o Hwf Hc Hxs)
          as (P & W).
        destruct (clear c1) as [[e|u] c2]; injection H as _ <-;
          cbn [snd] in *; refine (conj P (conj W _));
          unfold after_checkout; cbn [self]; exact Hl.
    + pose proof (not_cart_some s l c Hl Hc) as Hn. rewrite Hb in Hn.
      rewrite (checkout_refused s pm Hn) in H. injection H as _ <-.
      exact (conj (preserved_refl s) (conj Hwf Hl)).
  - rewrite (checkout_refused s pm (not_cart_none s Hl)) in H.
    injection H as _ <-.
    exact (conj (preserved_refl s) (conj Hwf Hl)).
Qed.

Lemma checkout_total (s : State) (pm : PaymentMethod) :
  wf s = true -> exists r s', checkout pm s = Some (r, s').
Proof.
  intros Hwf. pose proof (wf_shape s Hwf) as ((xs & Hxs) & Hcart).
  destruct (_cart (self s)) as [l|] eqn:Hl.
  - destruct (Hcart l eq_refl) as (c & Hc).
    destruct (cart_bool c) eqn:Hb.
    + rewrite (checkout_existing s pm l c xs Hl Hc Hb Hxs).
      destruct (create_order c pm) as [[e|o] c1]; [eauto|].
      destruct (clear c1) as [[e|u] c2]; eauto.
    + pose proof (not_cart_some s l c Hl Hc) as Hn. rewrite Hb in Hn.
      rewrite (checkout_refused s pm Hn). eauto.
  - rewrite (checkout_refused s pm (not_cart_none s Hl)). eauto.
Qed.

End Steps.

Section Runs.

Context `{shop : Collaborators}.

Lemma change_password_state (s s' : State) (old new : pystr) (r : outcome bool) :
  change_password old new s = Some (r, s') ->
  s' = s \/ s' = mkState (set_password new (self s)) (heap s).
Proof.
  unfold change_password. unfold_m.
  destruct (negb (str_eq (_password (self s)) old)); [intros [= _ <-]; now left|].
  destruct (len new <? 8); intros [= _ <-]; [now left | now right].
Qed.

Lemma set_password_ok (s : State) (new : pystr) :
  wf s = true ->
  let s' := mkState (set_password new (self s)) (heap s) in
  preserved s s' /\ wf s' = true /\ _cart (self s') = _cart (self s).
Proof.
  intros Hwf s'. split; [|split; [exact Hwf | reflexivity]].
  unfold preserved, s'. cbn. repeat split. apply heap_grows_refl.
Qed.

Lemma get_orders_sound (s s' : State) (r : outcome loc) :
  wf s = true -> get_orders s = Some (r, s') ->
  preserved s s' /\ wf s' = true /\ _cart (self s') = _cart (self s).
Proof.
  intros Hwf H. pose proof (wf_shape s Hwf) as ((xs & Hxs) & _).
  rewrite (get_orders_run s xs Hxs) in H. injection H as _ <-.
  assert (preserved s (mkState (self s)
            (<[fresh (dom (heap s)) := ListObj xs]> (heap s)))) as P
    by (apply preserved_heap, heap_grows_alloc, fresh_not_allocated).
  refine (conj P (conj _ eq_refl)). now apply (wf_preserved_same_cart s).
Qed.

Lemma update_inventory_sound (s s' : State) (candy : loc) (q : pyval)
    (r : outcome unit) :
  wf s = true -> update_inventory candy q s = Some (r, s') ->
  preserved s s' /\ wf s' = true /\ _cart (self s') = _cart (self s).
Proof.
  intros Hwf H. unfold update_inventory in H. unfold_m.
  destruct (heap s !! candy) as [[| |v]|] eqn:E; try discriminate.
  injection H as _ <-.
  assert (preserved s (mkState (self s) (<[candy := CandyObj q]> (heap s)))) as P
    by (apply preserved_heap; now apply (heap_grows_update _ _ (CandyObj v))).
  refine (conj P (conj _ eq_refl)). now apply (wf_preserved_same_cart s).
Qed.

(** One call: what it preserves, and what it does to the cart reference. *)
Lemma invoke_sound (c : call) (s s' : State) (r : outcome value) :
  wf s = true -> invoke c s = Some (r, s') ->
  preserved s s' /\ wf s' = true /\
  (if is_add_to_cart c then _cart (self s') <> None
   else _cart (self s') = _cart (self s)) /\
  (forall l c0, _cart (self s) = Some l -> cart_at l s = Some c0 ->
                cart_bool c0 = true -> _cart (self s') = Some l).
Proof.
  intros Hwf H.
  assert (forall t : State,
            preserved s t /\ wf t = true /\ _cart (self t) = _cart (self s) ->
            is_add_to_cart c = false ->
            preserved s t /\ wf t = true /\
            (if is_add_to_cart c then _cart (self t) <> None
             else _cart (self t) = _cart (self s)) /\
            (forall l c0, _cart (self s) = Some l -> cart_at l s = Some c0 ->
                          cart_bool c0 = true -> _cart (self t) = Some l))
    as Same.
  { intros t (P & W & C) ->. refine (conj P (conj W (conj C _))).
    intros l c0 Hl _ _. congruence. }
  assert (preserved s s /\ wf s = true /\ _cart (self s) = _cart (self s)) as Id
    by exact (conj (preserved_refl s) (conj Hwf eq_refl)).
  destruct c as [em pw| |old new|candy q|pm| | |candy q|orders]; cbn [invoke] in H.
  - apply bind_ret_state in H as (r0 & H).
    rewrite login_run in H. injection H as _ <-. now apply Same.
  - apply bind_ret_state in H as (r0 & H).
    destruct (validate_cases s) as [(Hv & _)|(msg & _ & Hv & _)];
      rewrite Hv in H; injection H as _ <-; now apply Same.
  - apply bind_ret_state in H as (r0 & H).
    apply change_password_state in H as [->| ->]; [now apply Same|].
    apply Same; [|reflexivity]. now apply set_password_ok.
  - apply bind_ret_state in H as (r0 & H).
    destruct (add_to_cart_sound s s' candy q r0 Hwf H) as (P & W & N & K).
    exact (conj P (conj W (conj N K))).
  - apply bind_ret_state in H as (r0 & H).
    apply Same; [|reflexivity]. exact (checkout_sound s s' pm r0 Hwf H).
  - apply bind_ret_state in H as (r0 & H).
    apply Same; [|reflexivity]. exact (get_orders_sound s s' r0 Hwf H).
  - apply bind_ret_state in H as (r0 & H). unfold get_cart in H. unfold_m.
    injection H as _ <-. now apply Same.
  - apply bind_ret_state in H as (r0 & H).
    apply staff_method_cases in H as [->|H]; [now apply Same|].
    apply Same; [|reflexivity]. exact (update_inventory_sound s s' candy q r0 Hwf H).
  - apply bind_ret_state in H as (r0 & H).
    apply staff_method_cases in H as [->|H]; [now apply Same|].
    destruct (view_sales_report_pure orders s) as (r1 & Hr).
    rewrite Hr in H. injection H as _ <-. now apply Same.
Qed.

(** A call whose arguments are well typed does return or raise. *)
Lemma invoke_total (c : call) (s : State) :
  wf s = true -> call_typed (heap s) c = true ->
  exists r s', invoke c s = Some (r, s').
Proof.
  intros Hwf Ht.
  destruct c as [em pw| |old new|candy q|pm| | |candy q|orders]; cbn [invoke].
  - destruct (bind_ret_total _ VBool _ _ _ (login_run s em pw)) as (r & Hr). eauto.
  - destruct (validate_cases s) as [(Hv & _)|(msg & _ & Hv & _)];
      destruct (bind_ret_total _ (fun _ => VNone) _ _ _ Hv) as (r & Hr); eauto.
  - assert (exists r0 s', change_password old new s = Some (r0, s')) as (r0 & s' & H).
    { unfold change_password. unfold_m.
      destruct (negb _); [eauto|]. destruct (len new <? 8); eauto. }
    destruct (bind_ret_total _ VBool _ _ _ H) as (r & Hr). eauto.
  - destruct (add_to_cart_total s candy q Hwf) as (r0 & s' & H).
    destruct (bind_ret_total _ (fun _ => VNone) _ _ _ H) as (r & Hr). eauto.
  - destruct (checkout_total s pm Hwf) as (r0 & s' & H).
    destruct (bind_ret_total _ VOrder _ _ _ H) as (r & Hr). eauto.
  - pose proof (wf_shape s Hwf) as ((xs & Hxs) & _).
    pose proof (get_orders_run s xs Hxs) as H.
    destruct (bind_ret_total _ VRef _ _ _ H) as (r & Hr). eauto.
  - unfold get_cart. unfold_m. eauto.
  - assert (exists r0 s', staff_method "update_inventory"
                            (update_inventory candy q) s = Some (r0, s'))
      as (r0 & s' & H).
    { unfold staff_method. unfold_m. destruct (cls (self s)); [eauto|].
      cbn [call_typed] in Ht. rewrite (update_inventory_run s candy q Ht). eauto. }
    destruct (bind_ret_total _ (fun _ => VNone) _ _ _ H) as (r & Hr). eauto.
  - assert (exists r0 s', staff_method "view_sales_report"
                            (view_sales_report orders) s = Some (r0, s'))
      as (r0 & s' & H).
    { unfold staff_method. unfold_m. destruct (cls (self s)); [eauto|].
      destruct (view_sales_report_pure orders s) as (r1 & Hr). eauto. }
    destruct (bind_ret_total _ VStr _ _ _ H) as (r & Hr). eauto.
Qed.

Lemma call_typed_grows (h h' : gmap loc obj) (c : call) :
  heap_grows h h' -> call_typed h c = true -> call_typed h' c = true.
Proof.
  intros G. destruct c; cbn [call_typed]; try reflexivity.
  now apply is_candy_grows.
Qed.

(** A sequence of calls: the invariants of one call carry over. *)
Lemma run_sound (cs : list call) (s s' : State) :
  wf s = true -> run cs s = Some s' ->
  preserved s s' /\ wf s' = true /\
  (_cart (self s') = None <->
   _cart (self s) = None /\ existsb is_add_to_cart cs = false) /\
  (existsb is_add_to_cart cs = false -> _cart (self s') = _cart (self s)).
Proof.
  revert s. induction cs as [|c cs IH]; intros s Hwf H; cbn [run] in H.
  - injection H as <-. refine (conj (preserved_refl s) (conj Hwf (conj _ _))).
    + cbn. tauto.
    + reflexivity.
  - destruct (invoke c s) as [[r s1]|] eqn:Hc; [|discriminate].
    destruct (invoke_sound c s s1 r Hwf Hc) as (P1 & W1 & C1 & K1).
    destruct (IH s1 W1 H) as (P2 & W2 & C2 & K2).
    refine (conj (preserved_trans _ _ _ P1 P2) (conj W2 (conj _ _))).
    + cbn [existsb]. rewrite C2, orb_false_iff.
      destruct (is_add_to_cart c).
      * split; [intros (E & _); contradiction | intros (_ & [=] & _)].
      * rewrite C1. tauto.
    + cbn [existsb]. intros X. apply orb_false_iff in X as (Xc & Xcs).
      rewrite Xc in C1. rewrite (K2 Xcs). exact C1.
Qed.

Lemma run_total (cs : list call) (s : State) :
  wf s = true -> forallb (call_typed (heap s)) cs = true ->
  exists s', run cs s = Some s'.
Proof.
  revert s. induction cs as [|c cs IH]; intros s Hwf Ht; cbn [run].
  - eauto.
  - cbn [forallb] in Ht. apply andb_true_iff in Ht as (Hc & Hcs).
    destruct (invoke_total c s Hwf Hc) as (r & s1 & H1). rewrite H1.
    destruct (invoke_sound c s s1 r Hwf H1) as ((G & _) & W1 & _).
    apply IH; [exact W1|].
    apply forallb_forall. intros c' Hin.
    rewrite forallb_forall in Hcs. apply (call_typed_grows _ _ _ G), Hcs, Hin.
Qed.


Lemma wf_User_init (user_id nm : pyval) (em pw : pystr) (h : gmap loc obj) :
  wf (User_init user_id nm em pw h) = true.
Proof.
  apply (wf_intro _ []); unfold User_init; cbn [self heap _orders _cart].
  - apply lookup_insert_eq.
  - intros l [=].
Qed.

Lemma wf_Staff_init (user_id nm : pyval) (em pw pos : pystr) (h : gmap loc obj) :
  wf (Staff_init user_id nm em pw pos h) = true.
Proof.
  apply (wf_intro _ []); unfold Staff_init, User_init;
    cbn [self heap _orders _cart set_position].
  - apply lookup_insert_eq.
  - intros l [=].
Qed.

End Runs.

(** ** The cart and the order history *)

Section CartClaims.

Context `{shop : Collaborators}.









(** C6: [get_orders] returns a new list object with the items of the
    history and changes neither the receiver nor any object that existed;
    whatever the caller then does to the returned list, the history keeps
    its items and a later [get_orders] returns them again. *)
Theorem get_orders_defensive_copy (s : State) (xs : list Order)
    (Hxs : history s = Some xs) :
  exists l s1,
    get_orders s = Some (Returned l, s1) /\
    heap s !! l = None /\ l <> _orders (self s) /\
    items_at l s1 = Some xs /\
    self s1 = self s /\
    (forall k, k <> l -> heap s1 !! k = heap s !! k) /\
    history s1 = Some xs /\
    forall ys,
      history (mutate_list l ys s1) = Some xs /\
      exists l' s2,
        get_orders (mutate_list l ys s1) = Some (Returned l', s2) /\
        items_at l' s2 = Some xs /\ items_at l s2 = Some ys.
Proof.
  unfold history in Hxs.
  destruct (heap s !! _orders (self s)) as [[xs'| |]|] eqn:Eo; try discriminate.
  injection Hxs as ->.
  pose proof (fresh_not_allocated (heap s)) as Hf.
  set (l := fresh (dom (heap s))) in *.
  assert (l <> _orders (self s)) as Hne by congruence.
  exists l, (mkState (self s) (<[l := ListObj xs]> (heap s))).
  split; [exact (get_orders_run s xs Eo)|].
  split; [exact Hf|]. split; [exact Hne|].
  split; [unfold items_at; cbn [heap]; now rewrite lookup_insert_eq|].
  split; [reflexivity|].
  split; [intros k Hk; cbn [heap]; now rewrite lookup_insert_ne|].
  split; [unfold history; cbn [self heap];
          rewrite lookup_insert_ne by exact Hne; now rewrite Eo|].
  intros ys.
  assert (heap (mutate_list l ys (mkState (self s) (<[l := ListObj xs]> (heap s))))
            !! _orders (self s) = Some (ListObj xs)) as Hm.
  { unfold mutate_list. cbn [self heap].
    rewrite !lookup_insert_ne by exact Hne. exact Eo. }
  split; [unfold history; cbn [self mutate_list]; now rewrite Hm|].
  eexists _, _. split; [exact (get_orders_run _ xs Hm)|].
  split; unfold items_at; cbn [heap].
  - now rewrite lookup_insert_eq.
  - rewrite lookup_insert_ne.
    + unfold mutate_list. cbn [heap]. now rewrite lookup_insert_eq.
    + intros E. pose proof (fresh_not_allocated
        (heap (mutate_list l ys (mkState (self s) (<[l := ListObj xs]> (heap s))))))
        as Hf'.
      rewrite E in Hf'. unfold mutate_list in Hf'. cbn [heap] in Hf'.
      rewrite lookup_insert_eq in Hf'. discriminate.
Qed.

(** C10: [email_verified] is false after construction, of a User and of a
    Staff, and is still false after any sequence of calls of the layer's
    methods, which all run to an outcome when the candies they are given
    are candies. *)
Theorem email_verified_stays_false
    (user_id nm : pyval) (em pw pos : pystr) (h : gmap loc obj)
    (cs : list call) :
  email_verified (self (User_init user_id nm em pw h)) = false /\
  email_verified (self (Staff_init user_id nm em pw pos h)) = false /\
  (forall s', run cs (User_init user_id nm em pw h) = Some s' ->
              email_verified (self s') = false) /\
  (forall s', run cs (Staff_init user_id nm em pw pos h) = Some s' ->
              email_verified (self s') = false) /\
  (forallb (call_typed h) cs = true ->
     (exists s', run cs (User_init user_id nm em pw h) = Some s') /\
     (exists s', run cs (Staff_init user_id nm em pw pos h) = Some s')).
Proof.
  split; [reflexivity|]. split; [reflexivity|]. split; [|split].
  - intros s' H.
    destruct (run_sound cs _ s' (wf_User_init _ _ _ _ _) H)
      as ((_ & _ & _ & _ & _ & _ & E & _) & _).
    rewrite E. reflexivity.
  - intros s' H.
    destruct (run_sound cs _ s' (wf_Staff_init _ _ _ _ _ _) H)
      as ((_ & _ & _ & _ & _ & _ & E & _) & _).
    rewrite E. reflexivity.
  - intros Ht.
    assert (forallb (call_typed (<[fresh (dom h) := ListObj []]> h)) cs = true)
      as Ht'.
    { apply forallb_forall. intros c Hin. rewrite forallb_forall in Ht.
      apply (call_typed_grows h); [|now apply Ht].
      apply heap_grows_alloc, fresh_not_allocated. }
    split.
    + apply run_total; [apply wf_User_init | exact Ht'].
    + apply run_total; [apply wf_Staff_init | exact Ht'].
Qed.

End CartClaims.

(** ** Failures and refusals *)

Section ErrorClaims.

Context `{shop : Collaborators}.

Lemma change_password_raises (s s' : State) (old new : pystr) (e : exn) :
  change_password old new s = Some (Raised e, s') ->
  e = ValueError (str "new_password must be at least 8 characters") /\ s' = s.
Proof.
  unfold change_password. unfold_m.
  destruct (negb (str_eq (_password (self s)) old)); [discriminate|].
  destruct (len new <? 8); [|discriminate]. now intros [= <- <-].
Qed.

(** C9 (as the code has it): every failure of the layer's own is raised as
    the one built-in class ValueError, the validation failures of
    [validate] and [change_password] and the refusal of [checkout] alike;
    they differ in their message only.  The false results of [login] and
    [change_password] are ordinary returns: [login] never raises, a wrong
    old password returns false, and a returned value is never a raised
    exception. *)
Theorem failures_are_value_errors (s : State) :
  (forall e s', validate s = Some (Raised e, s') ->
     class_of e = Some ValueErrorClass /\
     exists msg, e = ValueError msg /\ In msg validation_messages) /\
  (forall old new e s', change_password old new s = Some (Raised e, s') ->
     class_of e = Some ValueErrorClass /\
     e = ValueError (str "new_password must be at least 8 characters")) /\
  (forall pm, _cart (self s) = None ->
     exists e, checkout pm s = Some (Raised e, s) /\
       class_of e = Some ValueErrorClass /\
       e = ValueError (str "Cart is empty")) /\
  (~ In (str "Cart is empty") validation_messages /\
   str "Cart is empty" <> str "new_password must be at least 8 characters") /\
  (forall em pw, exists b, login em pw s = Some (Returned b, s)) /\
  (forall old new, old <> _password (self s) ->
     change_password old new s = Some (Returned false, s)) /\
  (forall (b : bool) (e : exn), Returned b <> Raised e).
Proof.
  split; [|split; [|split; [|split; [|split; [|split]]]]].
  - intros e s' H.
    destruct (validate_cases s) as [(Hv & _)|(msg & Hin & Hv & _)];
      rewrite Hv in H; [discriminate|].
    injection H as <- _. split; [reflexivity|]. now exists msg.
  - intros old new e s' H. apply change_password_raises in H as (-> & _).
    now split.
  - intros pm Hn. eexists. split; [apply checkout_refused, not_cart_none, Hn|].
    now split.
  - split.
    + intros [H|[H|[H|[]]]]; vm_compute in H; discriminate.
    + intros H. vm_compute in H. discriminate.
  - intros em pw. eexists. apply login_run.
  - intros old new Hne. unfold change_password. unfold_m.
    apply not_eq_sym, str_eq_false in Hne. now rewrite Hne.
  - intros b e. discriminate.
Qed.

End ErrorClaims.

(** ** The sales report *)

Section NumberFacts.






Lemma format_hundredths (f : float) (sg : bool) (cents : Z) :
  hundredths f = Some (sg, cents) -> format_2f_float f = render_cents sg cents.
Proof.
  unfold hundredths, format_2f_float.
  destruct (Prim2SF f); intros [= <- <-] || discriminate; reflexivity.
Qed.




Lemma format_2f_to_float (x : number) (f : float) :
  to_float x = Some f -> format_2f x = Some (format_2f_float f).
Proof.
  destruct x; cbn [to_float format_2f]; intros H.
  - now rewrite H.
  - now injection H as ->.
Qed.

End NumberFacts.

Section ReportClaims.

Context `{shop : Collaborators}.

Lemma view_sales_report_run (orders : list Order) (s : State)
    (total : number) (text : pystr) :
  py_sum (map total_amount orders) = Some total ->
  format_2f total = Some text ->
  view_sales_report orders s = Some (Returned (str "Total sales: $" ++ text), s).
Proof. unfold view_sales_report. now intros -> ->. Qed.

Lemma view_sales_report_stateless (orders : list Order) :
  exists r, forall s : State, view_sales_report orders s = Some (r, s).
Proof.
  unfold view_sales_report.
  destruct (py_sum (map total_amount orders)) as [total|];
    [destruct (format_2f total)|]; eexists; intros s; reflexivity.
Qed.


End ReportClaims.

(** ** The scenarios of the specification, run on the concrete shop *)

Section Scenarios.

#[local] Existing Instance Demo.shop.

Lemma login_is_case_sensitive :
  login (str "a@b.com") (str "secret123") Demo.ann
    = Some (Returned true, Demo.ann) /\
  login (str "A@B.COM") (str "secret123") Demo.ann
    = Some (Returned false, Demo.ann) /\
  login (str "a@b.com") (str "Secret123") Demo.ann
    = Some (Returned false, Demo.ann).
Proof.
  destruct (login_exact_match Demo.ann (str "a@b.com") (str "secret123"))
    as (b1 & H1 & T1 & _).
  destruct (login_exact_match Demo.ann (str "A@B.COM") (str "secret123"))
    as (b2 & H2 & _ & F2).
  destruct (login_exact_match Demo.ann (str "a@b.com") (str "Secret123"))
    as (b3 & H3 & _ & F3).
  assert (b1 = true) as E1 by (apply T1; split; vm_compute; reflexivity).
  assert (b2 = false) as E2
    by (apply F2; left; intros E; vm_compute in E; discriminate).
  assert (b3 = false) as E3
    by (apply F3; right; intros E; vm_compute in E; discriminate).
  rewrite E1 in H1. rewrite E2 in H2. rewrite E3 in H3.
  exact (conj H1 (conj H2 H3)).
Defined.

Lemma change_password_scenario :
  change_password (str "wrong-old") (str "short") Demo.ann
    = Some (Returned false, Demo.ann) /\
  change_password (str "secret123") (str "short") Demo.ann
    = Some (Raised (ValueError (str "new_password must be at least 8 characters")),
            Demo.ann) /\
  exists s',
    change_password (str "secret123") (str "longenough1") Demo.ann
      = Some (Returned true, s') /\
    login (str "a@b.com") (str "secret123") s' = Some (Returned false, s') /\
    login (str "a@b.com") (str "longenough1") s' = Some (Returned true, s').
Proof.
  destruct (change_password_cases Demo.ann (str "wrong-old") (str "short"))
    as (H1 & _).
  destruct (change_password_cases Demo.ann (str "secret123") (str "short"))
    as (_ & H2 & _).
  destruct (change_password_cases Demo.ann (str "secret123") (str "longenough1"))
    as (_ & _ & H3).
  split; [apply H1; intros E; vm_compute in E; discriminate|].
  split; [apply H2; [reflexivity | vm_compute; reflexivity]|].
  destruct H3 as (E1 & _ & E2 & E3 & _);
    [reflexivity | vm_compute; discriminate|].
  eexists. split; [exact E1|]. split; [|exact E2].
  apply E3. intros E; vm_compute in E; discriminate.
Defined.

Lemma validate_scenario :
  validate Demo.ann = Some (Returned tt, Demo.ann) /\
  exists msg, validate Demo.dan = Some (Raised (ValueError msg), Demo.dan).
Proof.
  destruct (validate_accepts_exactly Demo.ann) as (Hok & _ & Hgood & _).
  destruct (validate_accepts_exactly Demo.dan) as (_ & Hbad & _ & Hdom).
  split.
  - apply Hok. split; [exists 1; split; [reflexivity | lia]|].
    split; [|exact Hgood].
    exists (str "Ann"), (chr "A"). split; [reflexivity|].
    split; [apply elem_of_cons; now left | reflexivity].
  - apply Hbad. intros (_ & _ & H). exact (Hdom H).
Defined.




Lemma get_orders_scenario :
  exists l s1,
    get_orders Demo.ann = Some (Returned l, s1) /\
    forall ys, history (mutate_list l ys s1) = Some [].
Proof.
  destruct (get_orders_defensive_copy Demo.ann [] eq_refl)
    as (l & s1 & H1 & _ & _ & _ & _ & _ & _ & H2).
  exists l, s1. split; [exact H1|]. intros ys. exact (proj1 (H2 ys)).
Defined.

Lemma email_verified_scenario :
  exists s',
    run [Validate; ChangePassword (str "hunter2hunter2") (str "correct horse");
         AddToCart 1%positive (PyInt 3); UpdateInventory 1%positive (PyInt 4);
         Checkout (str "card"); GetOrders; GetCart;
         ViewSalesReport [Demo.order_of (NFloat 10.5)];
         Login (str "bob@candy.shop") (str "correct horse")] Demo.bob = Some s' /\
    email_verified (self s') = false.
Proof.
  pose proof (email_verified_stays_false (PyInt 2) (PyStr (str "Bob"))
                (str "bob@candy.shop") (str "hunter2hunter2") (str "manager")
                {[ 1%positive := CandyObj (PyInt 7) ]}
                [Validate; ChangePassword (str "hunter2hunter2") (str "correct horse");
                 AddToCart 1%positive (PyInt 3); UpdateInventory 1%positive (PyInt 4);
                 Checkout (str "card"); GetOrders; GetCart;
                 ViewSalesReport [Demo.order_of (NFloat 10.5)];
                 Login (str "bob@candy.shop") (str "correct horse")])
    as (_ & _ & _ & Hinv & Htot).
  destruct Htot as (_ & (s' & Hrun)); [reflexivity|].
  exists s'. split; [exact Hrun | exact (Hinv s' Hrun)].
Defined.



(** An int total beyond the float range makes the report raise. *)
Lemma sales_report_of_huge_int :
  view_sales_report
    [Demo.order_of (NFloat 1.5); Demo.order_of (NInt (10 ^ 400))] Demo.bob
  = Some (Raised (OverflowError (str "int too large to convert to float")),
          Demo.bob).
Proof. vm_compute. reflexivity. Qed.

(** A password that is too short and a checkout without a cart raise
    exceptions of one and the same class. *)
Lemma validation_and_empty_cart_share_a_class :
  exists e1 e2,
    change_password (str "secret123") (str "short") Demo.ann
      = Some (Raised e1, Demo.ann) /\
    checkout (str "card") Demo.ann = Some (Raised e2, Demo.ann) /\
    class_of e1 = Some ValueErrorClass /\
    class_of e2 = Some ValueErrorClass /\
    class_of e1 = class_of e2.
Proof. eexists _, _. repeat split. Qed.

Lemma value_errors_scenario :
  exists e1 e2,
    validate Demo.dan = Some (Raised e1, Demo.dan) /\
    class_of e1 = Some ValueErrorClass /\
    checkout (str "card") Demo.dan = Some (Raised e2, Demo.dan) /\
    class_of e2 = Some ValueErrorClass.
Proof.
  destruct (failures_are_value_errors Demo.dan) as (Hv & _ & Hc & _).
  destruct (Hc (str "card") eq_refl) as (e2 & H2 & C2 & _).
  exists (ValueError (str "email appears invalid")), e2.
  split; [reflexivity|]. split; [|exact (conj H2 C2)].
  exact (proj1 (Hv _ Demo.dan eq_refl)).
Defined.

End Scenarios.

(** ** Carts with a length

    The guards test the truth value of the cart, not its presence.  With a
    cart class that has a length, the cart emptied by a checkout tests
    false: the next checkout is refused although the cart exists, nothing
    is appended to the history, and the next [add_to_cart] puts a new cart
    in the place of the old one. *)

Section SizedScenario.

#[local] Existing Instance Sized.shop.




End SizedScenario.

(** * Further properties of the layer *)

(** ** [Person.display_info] and what the further statements use *)

Section Display.

Context `{shop : Collaborators}.

(** [repr] of a float, which the layer leaves to the interpreter. *)
Variable float_repr : float -> pystr.

(** [str(v)], as an f-string field without a format renders [v]. *)
Definition py_str (v : pyval) : pystr :=
  match v with
  | PyNone => str "None"
  | PyBool b => if b then str "True" else str "False"
  | PyInt z => (if z <? 0 then str "-" else []) ++ decimal (Z.abs z)
  | PyFloat f => float_repr f
  | PyStr s => s
  end.

(** [Person.display_info] *)
Definition display_info : M pystr :=
  (u <~ get_self;;
   ret (py_str (name u) ++ str " (" ++ email u ++ str ")"))%py.

End Display.

Section MoreShape.

Context `{shop : Collaborators}.

(** A caller that holds the reference [get_cart] returned changes the
    cart behind it. *)
Definition mutate_cart (l : loc) (c : ShoppingCart) (s : State) : State :=
  mkState (self s) (<[l := CartObj c]> (heap s)).

(** The quantity of the candy at a location. *)
Definition quantity_at (l : loc) (s : State) : option pyval :=
  match heap s !! l with
  | Some (CandyObj q) => Some q
  | _ => None
  end.

(** The same receiver as an instance of [Staff] with a position. *)
Definition as_staff (pos : pystr) (s : State) : State :=
  mkState (set_position pos (self s)) (heap s).

(** The result of a computation with the final state seen through [f]. *)
Definition on_state {A} (f : State -> State)
    (r : option (outcome A * State)) : option (outcome A * State) :=
  match r with
  | Some (a, s) => Some (a, f s)
  | None => None
  end.

(** The calls of methods that [User] defines. *)
Definition user_call (c : call) : bool :=
  match c with
  | UpdateInventory _ _ | ViewSalesReport _ => false
  | _ => true
  end.

(** The calls that touch only the cart and the history. *)
Definition cart_or_history_call (c : call) : bool :=
  match c with
  | AddToCart _ _ | Checkout _ | GetOrders | GetCart => true
  | _ => false
  end.

Definition is_checkout (c : call) : bool :=
  match c with
  | Checkout _ => true
  | _ => false
  end.

Definition is_change_password (c : call) : bool :=
  match c with
  | ChangePassword _ _ => true
  | _ => false
  end.

(** The int a total denotes, when it is an int. *)
Definition int_total (o : Order) : option Z :=
  match total_amount o with
  | NInt z => Some z
  | NFloat _ => None
  end.

End MoreShape.

(** ** A shop whose carts cannot be cleared

    The concrete shop with a [clear] that always fails and leaves the
    cart as it is. *)

Module Faulty.

Inductive cart_error := BadQuantity | NothingToOrder | CannotClear.

Definition faulty_add_item (c : list (loc * Z)) (candy : loc) (quantity : pyval)
    : (cart_error + unit) * list (loc * Z) :=
  match as_int quantity with
  | Some q => if 0 <? q then (inr tt, c ++ [(candy, q)])
              else (inl BadQuantity, c)
  | None => (inl BadQuantity, c)
  end.

Definition faulty_create_order (c : list (loc * Z)) (pm : pystr)
    : (cart_error + Demo.order) * list (loc * Z) :=
  match c with
  | [] => (inl NothingToOrder, c)
  | _ => (inr (Demo.mkOrder c pm (NInt (foldr (fun l acc => snd l + acc) 0 c))), c)
  end.

#[local] Instance shop : Collaborators := {|
  PaymentMethod := pystr;
  Order := Demo.order;
  ShoppingCart := list (loc * Z);
  CollabError := cart_error;
  cart_new := [];
  cart_bool := fun _ => true;
  add_item := faulty_add_item;
  create_order := faulty_create_order;
  clear := fun c => (inl CannotClear, c);
  total_amount := Demo.total;
|}.

Definition fay : State :=
  User_init (PyInt 5) (PyStr (str "Fay")) (str "fay@candy.shop")
    (str "password5") ∅.

(** Fay with two pieces of candy 5 in her cart. *)
Definition fay_shopping : State :=
  default fay (run [AddToCart 5%positive (PyInt 2)] fay).

End Faulty.

(** ** The shapes of the state after a call *)

Section CallShapes.

Context `{shop : Collaborators}.

Lemma history_heap (s : State) (xs : list Order) :
  history s = Some xs <-> heap s !! _orders (self s) = Some (ListObj xs).
Proof.
  unfold history. destruct (heap s !! _orders (self s)) as [[ys| |]|];
    split; intros H; try discriminate; congruence.
Qed.

Lemma cart_at_heap (l : loc) (s : State) (c : ShoppingCart) :
  cart_at l s = Some c <-> heap s !! l = Some (CartObj c).
Proof.
  unfold cart_at. destruct (heap s !! l) as [[|c'|]|];
    split; intros H; try discriminate; congruence.
Qed.

(** [add_to_cart] either adds to the cart that is there and tests true, or
    puts a new cart at a fresh location. *)
Lemma add_to_cart_cases (s s' : State) (candy : loc) (q : pyval)
    (r : outcome unit) :
  wf s = true -> add_to_cart candy q s = Some (r, s') ->
  (exists l c, _cart (self s) = Some l /\ heap s !! l = Some (CartObj c) /\
     cart_bool c = true /\
     r = outcome_of (fst (add_item c candy q)) /\
     s' = mkState (self s)
            (<[l := CartObj (snd (add_item c candy q))]> (heap s)))
  \/
  (not_cart s = Some (Returned true, s) /\
   r = outcome_of (fst (add_item cart_new candy q)) /\
   s' = mkState (set_cart (Some (fresh (dom (heap s)))) (self s))
          (<[fresh (dom (heap s)) := CartObj (snd (add_item cart_new candy q))]>
             (heap s))).
Proof.
  intros Hwf H. pose proof (wf_shape s Hwf) as (_ & Hcart).
  destruct (_cart (self s)) as [l|] eqn:Hl.
  - destruct (Hcart l eq_refl) as (c & Hc).
    destruct (cart_bool c) eqn:Hb.
    + rewrite (add_to_cart_existing s candy q l c Hl Hc Hb) in H.
      injection H as <- <-. left. exists l, c. auto.
    + pose proof (not_cart_some s l c Hl Hc) as Hn. rewrite Hb in Hn.
      cbn [negb] in Hn.
      rewrite (add_to_cart_new s candy q Hn) in H. injection H as <- <-.
      right. auto.
  - pose proof (not_cart_none s Hl) as Hn.
    rewrite (add_to_cart_new s candy q Hn) in H. injection H as <- <-.
    right. auto.
Qed.

(** [checkout] is refused and changes nothing, or fails in [create_order]
    with only the cart changed, or appends the order and then returns it
    or fails in [clear]. *)
Lemma checkout_cases (s s' : State) (pm : PaymentMethod) (xs : list Order)
    (r : outcome Order) :
  wf s = true -> history s = Some xs -> checkout pm s = Some (r, s') ->
  (r = Raised (ValueError (str "Cart is empty")) /\ s' = s)
  \/
  (exists l c e c1, _cart (self s) = Some l /\ heap s !! l = Some (CartObj c) /\
     create_order c pm = (inl e, c1) /\ r = Raised (Foreign e) /\
     s' = mkState (self s) (<[l := CartObj c1]> (heap s)))
  \/
  (exists l c o c1 res c2, _cart (self s) = Some l /\
     heap s !! l = Some (CartObj c) /\
     create_order c pm = (inr o, c1) /\ clear c1 = (res, c2) /\
     r = match res with inl e => Raised (Foreign e) | inr _ => Returned o end /\
     s' = after_checkout s l xs o c2).
Proof.
  intros Hwf Hxs H. apply history_heap in Hxs.
  pose proof (wf_shape s Hwf) as (_ & Hcart).
  destruct (_cart (self s)) as [l|] eqn:Hl.
  - destruct (Hcart l eq_refl) as (c & Hc).
    destruct (cart_bool c) eqn:Hb.
    + rewrite (checkout_existing s pm l c xs Hl Hc Hb Hxs) in H.
      destruct (create_order c pm) as [[e|o] c1] eqn:Hco.
      * injection H as <- <-. right. left. exists l, c, e, c1. auto.
      * destruct (clear c1) as [res c2] eqn:Hcl. right. right.
        exists l, c, o, c1, res, c2.
        destruct res as [e|u]; injection H as <- <-; auto 10.
    + pose proof (not_cart_some s l c Hl Hc) as Hn. rewrite Hb in Hn.
      rewrite (checkout_refused s pm Hn) in H. injection H as <- <-. now left.
  - rewrite (checkout_refused s pm (not_cart_none s Hl)) in H.
    injection H as <- <-. now left.
Qed.

Lemma history_after_checkout (s : State) (l : loc) (c c' : ShoppingCart)
    (xs : list Order) (o : Order) :
  heap s !! l = Some (CartObj c) ->
  heap s !! _orders (self s) = Some (ListObj xs) ->
  history (after_checkout s l xs o c') = Some (xs ++ [o]).
Proof.
  intros Hc Ho. apply history_heap. unfold after_checkout. cbn [self heap].
  rewrite lookup_insert_ne by congruence. apply lookup_insert_eq.
Qed.

Lemma history_cart_update (s : State) (u : UserObj) (l : loc)
    (c' : ShoppingCart) (xs : list Order) :
  _orders u = _orders (self s) -> l <> _orders (self s) ->
  history s = Some xs ->
  history (mkState u (<[l := CartObj c']> (heap s))) = Some xs.
Proof.
  intros Hu Hne Hxs. apply history_heap in Hxs. apply history_heap.
  cbn [self heap]. rewrite Hu, lookup_insert_ne by exact Hne. exact Hxs.
Qed.

(** One call and the receiver's fields: nothing changes but the cart
    reference, by [add_to_cart], and the password, by a [change_password]
    that returns true. *)
Lemma invoke_self (c : call) (s s' : State) (r : outcome value) :
  wf s = true -> invoke c s = Some (r, s') ->
  self s' = self s \/
  (is_add_to_cart c = true /\ exists l, self s' = set_cart (Some l) (self s)) \/
  (exists old new, c = ChangePassword old new /\ old = _password (self s) /\
     8 <= len new /\ self s' = set_password new (self s)).
Proof.
  intros Hwf H.
  destruct c as [em pw| |old new|candy q|pm| | |candy q|orders]; cbn [invoke] in H;
    apply bind_ret_state in H as (r0 & H).
  - rewrite login_run in H. injection H as _ <-. now left.
  - destruct (validate_cases s) as [(Hv & _)|(msg & _ & Hv & _)];
      rewrite Hv in H; injection H as _ <-; now left.
  - unfold change_password in H. unfold_m.
    destruct (str_eq (_password (self s)) old) eqn:E; cbn [negb] in H;
      [|injection H as _ <-; now left].
    destruct (len new <? 8) eqn:L; injection H as _ <-; [now left|].
    right. right. exists old, new. apply str_eq_true in E. apply Z.ltb_ge in L.
    auto.
  - destruct (add_to_cart_cases s s' candy q r0 Hwf H)
      as [(l & c & _ & _ & _ & _ & ->)|(_ & _ & ->)]; [now left|].
    right. left. split; [reflexivity|]. now eexists.
  - pose proof (wf_shape s Hwf) as ((xs & Hxs) & _).
    apply history_heap in Hxs.
    destruct (checkout_cases s s' pm xs r0 Hwf Hxs H)
      as [(_ & ->)|[(l & c & e & c1 & _ & _ & _ & _ & ->)
                   |(l & c & o & c1 & res & c2 & _ & _ & _ & _ & _ & ->)]];
      now left.
  - pose proof (wf_shape s Hwf) as ((xs & Hxs) & _).
    rewrite (get_orders_run s xs Hxs) in H. injection H as _ <-. now left.
  - unfold get_cart in H. unfold_m. injection H as _ <-. now left.
  - apply staff_method_cases in H as [->|H]; [now left|].
    unfold update_inventory in H. unfold_m.
    destruct (heap s !! candy) as [[| |v]|]; try discriminate.
    injection H as _ <-. now left.
  - apply staff_method_cases in H as [->|H]; [now left|].
    destruct (view_sales_report_pure orders s) as (r1 & Hr).
    rewrite Hr in H. injection H as _ <-. now left.
Qed.

(** One call and the history: it stays, or a [checkout] that got past
    [create_order] appends the one order made. *)
Lemma invoke_history (c : call) (s s' : State) (r : outcome value)
    (xs : list Order) :
  wf s = true -> history s = Some xs -> invoke c s = Some (r, s') ->
  history s' = Some xs \/
  (is_checkout c = true /\ exists o, history s' = Some (xs ++ [o])).
Proof.
  intros Hwf Hxs H. pose proof (proj1 (history_heap s xs) Hxs) as Hh.
  destruct c as [em pw| |old new|candy q|pm| | |candy q|orders]; cbn [invoke] in H;
    apply bind_ret_state in H as (r0 & H).
  - rewrite login_run in H. injection H as _ <-. now left.
  - destruct (validate_cases s) as [(Hv & _)|(msg & _ & Hv & _)];
      rewrite Hv in H; injection H as _ <-; now left.
  - apply change_password_state in H as [->| ->]; now left.
  - left.
    destruct (add_to_cart_cases s s' candy q r0 Hwf H)
      as [(l & c & _ & Hc & _ & _ & ->)|(_ & _ & ->)].
    + apply history_cart_update; [reflexivity | congruence | exact Hxs].
    + apply history_cart_update; [reflexivity | | exact Hxs].
      pose proof (fresh_not_allocated (heap s)). congruence.
  - destruct (checkout_cases s s' pm xs r0 Hwf Hxs H)
      as [(_ & ->)|[(l & c & e & c1 & _ & Hc & _ & _ & ->)
                   |(l & c & o & c1 & res & c2 & _ & Hc & _ & _ & _ & ->)]].
    + now left.
    + left. apply history_cart_update; [reflexivity | congruence | exact Hxs].
    + right. split; [reflexivity|]. exists o.
      now apply (history_after_checkout s l c).
  - left. rewrite (get_orders_run s xs Hh) in H. injection H as _ <-.
    apply history_heap. cbn [self heap]. rewrite lookup_insert_ne; [exact Hh|].
    pose proof (fresh_not_allocated (heap s)). congruence.
  - unfold get_cart in H. unfold_m. injection H as _ <-. now left.
  - apply staff_method_cases in H as [->|H]; [now left|]. left.
    unfold update_inventory in H. unfold_m.
    destruct (heap s !! candy) as [[| |v]|] eqn:E; try discriminate.
    injection H as _ <-. apply history_heap. cbn [self heap].
    rewrite lookup_insert_ne; [exact Hh | congruence].
  - apply staff_method_cases in H as [->|H]; [now left|].
    destruct (view_sales_report_pure orders s) as (r1 & Hr).
    rewrite Hr in H. injection H as _ <-. now left.
Qed.

End CallShapes.

(** ** Passwords and identity over time *)

Section Identity.

Context `{shop : Collaborators}.

Lemma set_password_back (s : State) (new : pystr) :
  mkState (set_password (_password (self s)) (set_password new (self s))) (heap s)
  = s.
Proof. destruct s as [[] h]. reflexivity. Qed.

Lemma change_password_ok (s : State) (new : pystr) :
  8 <= len new ->
  change_password (_password (self s)) new s
  = Some (Returned true, mkState (set_password new (self s)) (heap s)).
Proof.
  intros L. apply Z.ltb_ge in L. unfold change_password. unfold_m.
  assert (str_eq (_password (self s)) (_password (self s)) = true) as ->
    by now apply str_eq_true.
  cbn [negb]. now rewrite L.
Qed.

(** X1: changing the password and changing it back restores the state
    exactly when the earlier password has at least 8 characters; an
    earlier password that is shorter, which only the constructor can have
    stored, is refused on the way back and the new one stays. *)
Theorem change_password_round_trip (s : State) (new : pystr)
    (Hnew : 8 <= len new) :
  let old := _password (self s) in
  let s1 := mkState (set_password new (self s)) (heap s) in
  change_password old new s = Some (Returned true, s1) /\
  (8 <= len old -> change_password new old s1 = Some (Returned true, s)) /\
  (len old < 8 ->
     change_password new old s1 =
       Some (Raised (ValueError (str "new_password must be at least 8 characters")),
             s1)).
Proof.
  intros old s1. split; [now apply change_password_ok|]. split.
  - intros Hold. apply Z.ltb_ge in Hold.
    rewrite <- (set_password_back s new) at 1.
    unfold change_password. unfold_m. unfold s1, old in *.
    cbn [self heap set_password _password].
    assert (str_eq new new = true) as -> by now apply str_eq_true.
    cbn [negb]. now rewrite Hold.
  - intros Hold. apply Z.ltb_lt in Hold.
    unfold change_password. unfold_m. unfold s1, old in *.
    cbn [self heap set_password _password].
    assert (str_eq new new = true) as -> by now apply str_eq_true.
    cbn [negb]. now rewrite Hold.
Qed.

Lemma invoke_password (c : call) (s s' : State) (r : outcome value) :
  wf s = true -> invoke c s = Some (r, s') ->
  _password (self s') = _password (self s) \/
  (is_change_password c = true /\ 8 <= len (_password (self s'))).
Proof.
  intros Hwf H.
  destruct (invoke_self c s s' r Hwf H)
    as [->|[(_ & l & ->)|(old & new & -> & _ & L & ->)]].
  - now left.
  - now left.
  - right. split; [reflexivity | exact L].
Qed.

Lemma run_password (cs : list call) (s s' : State) :
  wf s = true -> run cs s = Some s' ->
  (_password (self s') = _password (self s) \/
   8 <= len (_password (self s'))) /\
  (existsb is_change_password cs = false ->
   _password (self s') = _password (self s)).
Proof.
  revert s. induction cs as [|c cs IH]; intros s Hwf H; cbn [run] in H.
  - injection H as <-. split; [now left | reflexivity].
  - destruct (invoke c s) as [[r s1]|] eqn:Hc; [|discriminate].
    destruct (invoke_sound c s s1 r Hwf Hc) as (_ & W1 & _).
    destruct (IH s1 W1 H) as (P & Q).
    destruct (invoke_password c s s1 r Hwf Hc) as [E|(Hcp & L)].
    + rewrite <- E. split; [exact P|].
      cbn [existsb]. intros X. apply orb_false_iff in X as (_ & X). now apply Q.
    + split.
      * destruct P as [P|P]; [right; now rewrite P | now right].
      * cbn [existsb]. rewrite Hcp. discriminate.
Qed.

(** X2: after any sequence of calls the stored password is the one the
    sequence started with or has at least 8 characters; and when the
    sequence has no [change_password], the password is unchanged and
    [login] answers every pair of arguments as it did before. *)
Theorem password_changes_only_by_change_password
    (cs : list call) (s s' : State)
    (Hwf : wf s = true) (Hrun : run cs s = Some s') :
  (_password (self s') = _password (self s) \/
   8 <= len (_password (self s'))) /\
  (existsb is_change_password cs = false ->
   _password (self s') = _password (self s) /\
   forall em pw, exists b,
     login em pw s = Some (Returned b, s) /\
     login em pw s' = Some (Returned b, s')).
Proof.
  destruct (run_password cs s s' Hwf Hrun) as (P & Q).
  split; [exact P|]. intros X. specialize (Q X). split; [exact Q|].
  destruct (run_sound cs s s' Hwf Hrun) as ((_ & _ & _ & _ & E & _) & _).
  intros em pw. rewrite !login_run, Q, E. now eexists.
Qed.

Lemma validate_same_fields (s1 s2 : State) :
  person_id (self s1) = person_id (self s2) ->
  name (self s1) = name (self s2) ->
  email (self s1) = email (self s2) ->
  exists r, validate s1 = Some (r, s1) /\ validate s2 = Some (r, s2).
Proof.
  intros E1 E2 E3. unfold validate, getitem_last. unfold_m.
  rewrite E1, E2, E3.
  destruct (match as_int (person_id (self s2)) with
            | None => true | Some z => z <? 0 end); [eauto|].
  destruct (match as_str (name (self s2)) with
            | None => true | Some s0 => negb (truthy (strip s0)) end); [eauto|].
  destruct (negb (contains (chr "@") (email (self s2)))); [eauto|].
  destruct (last (split (chr "@") (email (self s2)))) as [d|]; [|eauto].
  destruct (negb (contains (chr ".") d)); eauto.
Qed.

(** X3: no call of the layer changes the id, the name or the email of the
    receiver, so that after any sequence of calls [validate] gives the
    verdict it gave before, with the same message when it raises, and
    [display_info] returns the same text. *)
Theorem identity_is_kept (float_repr : float -> pystr)
    (cs : list call) (s s' : State)
    (Hwf : wf s = true) (Hrun : run cs s = Some s') :
  person_id (self s') = person_id (self s) /\
  name (self s') = name (self s) /\
  email (self s') = email (self s) /\
  (exists r, validate s = Some (r, s) /\ validate s' = Some (r, s')) /\
  (exists text,
     display_info float_repr s = Some (Returned text, s) /\
     display_info float_repr s' = Some (Returned text, s')).
Proof.
  destruct (run_sound cs s s' Hwf Hrun) as ((_ & _ & E1 & E2 & E3 & _) & _).
  split; [exact E1|]. split; [exact E2|]. split; [exact E3|]. split.
  - apply validate_same_fields; congruence.
  - unfold display_info. unfold_m. rewrite E2, E3. now eexists.
Qed.

(** X4: on a record that [validate] accepts, [display_info] returns the
    name as it is stored, a space and the email in parentheses; the text
    has the "@" of the email, and the state is left as it was. *)
Theorem display_info_of_valid_record (float_repr : float -> pystr)
    (s : State) (Hvalid : validate s = Some (Returned tt, s)) :
  exists nm,
    name (self s) = PyStr nm /\
    display_info float_repr s =
      Some (Returned (nm ++ str " (" ++ email (self s) ++ str ")"), s) /\
    chr "@" ∈ nm ++ str " (" ++ email (self s) ++ str ")".
Proof.
  destruct (validate_cases s) as [(_ & _ & (nm & c & Hn & _) & (pre & d & He & _))
                                 |(msg & _ & Hr & _)];
    [|rewrite Hr in Hvalid; discriminate].
  exists nm. split; [exact Hn|]. split.
  - unfold display_info. unfold_m. rewrite Hn. reflexivity.
  - rewrite He. rewrite !elem_of_app. right. right. left. right.
    apply elem_of_cons. now left.
Qed.

End Identity.

(** ** The history and the cart over time *)

Section HistoryAndCart.

Context `{shop : Collaborators}.

Lemma run_history (cs : list call) (s s' : State) (xs : list Order) :
  wf s = true -> history s = Some xs -> run cs s = Some s' ->
  exists ys, history s' = Some (xs ++ ys) /\
             (length ys <= length (List.filter is_checkout cs))%nat.
Proof.
  revert s xs. induction cs as [|c cs IH]; intros s xs Hwf Hxs H; cbn [run] in H.
  - injection H as <-. exists []. rewrite app_nil_r. split; [exact Hxs | cbn; lia].
  - destruct (invoke c s) as [[r s1]|] eqn:Hc; [|discriminate].
    destruct (invoke_sound c s s1 r Hwf Hc) as (_ & W1 & _).
    destruct (invoke_history c s s1 r xs Hwf Hxs Hc) as [H1|(Hck & o & H1)].
    + destruct (IH s1 xs W1 H1 H) as (ys & Hys & L). exists ys.
      split; [exact Hys|]. cbn [List.filter]. destruct (is_checkout c); cbn; lia.
    + destruct (IH s1 (xs ++ [o]) W1 H1 H) as (ys & Hys & L). exists (o :: ys).
      split; [now rewrite <- app_assoc in Hys|].
      cbn [List.filter]. rewrite Hck. cbn. lia.
Qed.

(** X5: under any sequence of calls the history only grows at its end: it
    is the earlier history followed by at most one order for each
    [checkout] of the sequence, and it is the earlier history when the
    sequence has no [checkout]. *)
Theorem history_only_grows (cs : list call) (s s' : State) (xs : list Order)
    (Hwf : wf s = true) (Hxs : history s = Some xs)
    (Hrun : run cs s = Some s') :
  (exists ys, history s' = Some (xs ++ ys) /\
              (length ys <= length (List.filter is_checkout cs))%nat) /\
  (existsb is_checkout cs = false -> history s' = Some xs).
Proof.
  destruct (run_history cs s s' xs Hwf Hxs Hrun) as (ys & Hys & L).
  split; [now exists ys|]. intros X.
  assert (List.filter is_checkout cs = []) as E.
  { clear -X. induction cs as [|c cs IH]; [reflexivity|].
    cbn in *. apply orb_false_iff in X as (-> & X). now apply IH. }
  rewrite E in L. destruct ys; [|cbn in L; lia].
  now rewrite app_nil_r in Hys.
Qed.

(** X6: a [checkout] whose [create_order] fails passes the failure on and
    leaves the history as it was; a [checkout] whose [clear] fails passes
    that failure on after the order was appended, so that the history has
    an order that the caller was never given. *)
Theorem checkout_failure_paths (s : State) (pm : PaymentMethod)
    (l : loc) (c : ShoppingCart) (xs : list Order)
    (Hl : _cart (self s) = Some l) (Hc : cart_at l s = Some c)
    (Hb : cart_bool c = true) (Hxs : history s = Some xs) :
  (forall e c1, create_order c pm = (inl e, c1) ->
     exists s', checkout pm s = Some (Raised (Foreign e), s') /\
       history s' = Some xs /\ cart_at l s' = Some c1 /\ self s' = self s) /\
  (forall o c1 e c2, create_order c pm = (inr o, c1) -> clear c1 = (inl e, c2) ->
     exists s', checkout pm s = Some (Raised (Foreign e), s') /\
       history s' = Some (xs ++ [o]) /\ cart_at l s' = Some c2 /\
       self s' = self s).
Proof.
  apply cart_at_heap in Hc. pose proof (proj1 (history_heap s xs) Hxs) as Hh.
  pose proof (checkout_existing s pm l c xs Hl Hc Hb Hh) as H.
  split.
  - intros e c1 E. rewrite E in H. eexists. split; [exact H|].
    split; [|split; [|reflexivity]].
    + apply history_cart_update; [reflexivity | congruence | exact Hxs].
    + apply cart_at_heap. cbn [heap]. apply lookup_insert_eq.
  - intros o c1 e c2 E1 E2. rewrite E1, E2 in H. eexists. split; [exact H|].
    split; [|split; [|reflexivity]].
    + now apply (history_after_checkout s l c).
    + apply cart_at_heap. unfold after_checkout. cbn [heap]. apply lookup_insert_eq.
Qed.

(** X7: a first [add_to_cart] whose [add_item] fails passes the failure
    on, and yet leaves behind the cart it created: the receiver then has a
    cart, the history is as before, and a [checkout] is no longer refused
    for want of a cart when that cart tests true. *)
Theorem failed_first_add_leaves_a_cart (s : State) (candy : loc) (q : pyval)
    (e : CollabError) (c' : ShoppingCart)
    (Hwf : wf s = true) (Hnone : _cart (self s) = None)
    (Hfail : add_item cart_new candy q = (inl e, c')) :
  exists s',
    add_to_cart candy q s = Some (Raised (Foreign e), s') /\
    _cart (self s') = Some (fresh (dom (heap s))) /\
    cart_at (fresh (dom (heap s))) s' = Some c' /\
    history s' = history s /\
    (cart_bool c' = true ->
     forall pm, exists r s'',
       checkout pm s' = Some (r, s'') /\
       r <> Raised (ValueError (str "Cart is empty"))).
Proof.
  pose proof (add_to_cart_new s candy q (not_cart_none s Hnone)) as H.
  cbv zeta in H. rewrite Hfail in H. cbn [fst snd outcome_of] in H.
  pose proof (wf_shape s Hwf) as ((xs & Hxs) & _).
  pose proof (fresh_not_allocated (heap s)) as Hf.
  set (l := fresh (dom (heap s))) in *.
  assert (l <> _orders (self s)) as Hne by congruence.
  eexists. split; [exact H|]. split; [reflexivity|].
  split; [apply cart_at_heap; cbn [heap]; apply lookup_insert_eq|].
  assert (history (mkState (set_cart (Some l) (self s))
                     (<[l := CartObj c']> (heap s))) = Some xs) as Hh
    by (apply history_cart_update;
        [reflexivity | exact Hne | now apply history_heap]).
  split; [rewrite Hh; symmetry; now apply history_heap|].
  intros Hb pm.
  pose proof (checkout_existing
                (mkState (set_cart (Some l) (self s)) (<[l := CartObj c']> (heap s)))
                pm l c' xs eq_refl (lookup_insert_eq _ _ _) Hb
                (proj1 (history_heap _ _) Hh)) as Hco.
  rewrite Hco. destruct (create_order c' pm) as [[e1|o] c1].
  - eexists _, _. split; [reflexivity | discriminate].
  - destruct (clear c1) as [[e2|u] c2]; eexists _, _;
      (split; [reflexivity | discriminate]).
Qed.

(** X8: a cart that tests false is treated as no cart at all: [checkout]
    is refused and changes nothing, and [add_to_cart] gives the receiver a
    new cart at a fresh location and adds to that one, leaving the earlier
    cart object as it was. *)
Theorem false_cart_counts_as_no_cart (s : State) (l : loc) (c : ShoppingCart)
    (Hl : _cart (self s) = Some l) (Hc : cart_at l s = Some c)
    (Hb : cart_bool c = false) :
  (forall pm,
     checkout pm s = Some (Raised (ValueError (str "Cart is empty")), s)) /\
  (forall candy q, exists s',
     add_to_cart candy q s =
       Some (outcome_of (fst (add_item cart_new candy q)), s') /\
     _cart (self s') = Some (fresh (dom (heap s))) /\
     fresh (dom (heap s)) <> l /\
     cart_at (fresh (dom (heap s))) s' = Some (snd (add_item cart_new candy q)) /\
     cart_at l s' = Some c).
Proof.
  apply cart_at_heap in Hc.
  pose proof (not_cart_some s l c Hl Hc) as Hn. rewrite Hb in Hn. cbn [negb] in Hn.
  split; [intros pm; now apply checkout_refused|].
  intros candy q. pose proof (add_to_cart_new s candy q Hn) as H. cbv zeta in H.
  pose proof (fresh_not_allocated (heap s)) as Hf.
  assert (fresh (dom (heap s)) <> l) as Hne by congruence.
  eexists. split; [exact H|]. split; [reflexivity|]. split; [exact Hne|].
  split; apply cart_at_heap; cbn [heap].
  - apply lookup_insert_eq.
  - rewrite lookup_insert_ne by exact Hne. exact Hc.
Qed.

(** X9: [get_cart] returns the receiver's own cart reference and creates
    nothing, twice in a row the same; what a caller puts into the cart
    through that reference is what the next [checkout] orders. *)
Theorem get_cart_is_live (s : State) (l : loc) (c c' : ShoppingCart)
    (xs : list Order) (pm : PaymentMethod) (o : Order) (c1 c2 : ShoppingCart)
    (Hl : _cart (self s) = Some l) (Hc : cart_at l s = Some c)
    (Hxs : history s = Some xs) (Hb : cart_bool c' = true)
    (Hcreate : create_order c' pm = (inr o, c1))
    (Hclear : clear c1 = (inr tt, c2)) :
  get_cart s = Some (Returned (Some l), s) /\
  exists s',
    checkout pm (mutate_cart l c' s) = Some (Returned o, s') /\
    history s' = Some (xs ++ [o]) /\ cart_at l s' = Some c2.
Proof.
  split; [unfold get_cart; unfold_m; now rewrite Hl|].
  apply cart_at_heap in Hc. pose proof (proj1 (history_heap s xs) Hxs) as Hh.
  assert (l <> _orders (self s)) as Hne by congruence.
  assert (heap (mutate_cart l c' s) !! _orders (self (mutate_cart l c' s))
          = Some (ListObj xs)) as Hh'
    by (unfold mutate_cart; cbn [self heap];
        rewrite lookup_insert_ne by exact Hne; exact Hh).
  pose proof (checkout_existing (mutate_cart l c' s) pm l c' xs Hl
                (lookup_insert_eq _ _ _) Hb Hh') as H.
  rewrite Hcreate, Hclear in H. eexists. split; [exact H|]. split.
  - apply (history_after_checkout _ l c'); [apply lookup_insert_eq | exact Hh'].
  - apply cart_at_heap. unfold after_checkout. cbn [heap]. apply lookup_insert_eq.
Qed.

(** X10: every [get_orders] makes a list object of its own: two calls in
    a row return two different locations, both different from the
    history, both holding the items of the history, and changing the one
    list changes neither the other nor the history. *)
Theorem get_orders_copies_are_independent (s : State) (xs : list Order)
    (Hxs : history s = Some xs) :
  exists l1 s1 l2 s2,
    get_orders s = Some (Returned l1, s1) /\
    get_orders s1 = Some (Returned l2, s2) /\
    l1 <> l2 /\ l1 <> _orders (self s) /\ l2 <> _orders (self s) /\
    items_at l1 s2 = Some xs /\ items_at l2 s2 = Some xs /\
    forall ys,
      items_at l1 (mutate_list l1 ys s2) = Some ys /\
      items_at l2 (mutate_list l1 ys s2) = Some xs /\
      history (mutate_list l1 ys s2) = Some xs.
Proof.
  pose proof (proj1 (history_heap s xs) Hxs) as Hh.
  pose proof (fresh_not_allocated (heap s)) as Hf1.
  set (l1 := fresh (dom (heap s))) in *.
  set (s1 := mkState (self s) (<[l1 := ListObj xs]> (heap s))).
  assert (l1 <> _orders (self s)) as N1 by congruence.
  assert (heap s1 !! _orders (self s1) = Some (ListObj xs)) as Hh1
    by (unfold s1; cbn [self heap]; rewrite lookup_insert_ne by exact N1; exact Hh).
  pose proof (fresh_not_allocated (heap s1)) as Hf2.
  set (l2 := fresh (dom (heap s1))) in *.
  assert (l2 <> l1) as N12
    by (intros E; rewrite E in Hf2; unfold s1 in Hf2; cbn [heap] in Hf2;
        rewrite lookup_insert_eq in Hf2; discriminate).
  assert (l2 <> _orders (self s)) as N2
    by (intros E; rewrite E in Hf2;
        change (_orders (self s)) with (_orders (self s1)) in Hf2; congruence).
  exists l1, s1, l2, (mkState (self s1) (<[l2 := ListObj xs]> (heap s1))).
  split; [exact (get_orders_run s xs Hh)|].
  split; [exact (get_orders_run s1 xs Hh1)|].
  split; [congruence|]. split; [exact N1|]. split; [exact N2|].
  unfold items_at, history, mutate_list, s1. cbn [self heap].
  split; [rewrite lookup_insert_ne by exact N12; now rewrite lookup_insert_eq|].
  split; [now rewrite lookup_insert_eq|].
  intros ys. split; [now rewrite lookup_insert_eq|]. split.
  - rewrite lookup_insert_ne by congruence. now rewrite lookup_insert_eq.
  - rewrite !lookup_insert_ne by congruence. now rewrite Hh.
Qed.

End HistoryAndCart.

(** ** Staff, inventory and what the methods raise *)

Section StaffAndErrors.

Context `{shop : Collaborators}.

Lemma quantity_at_heap (l : loc) (s : State) (v : pyval) :
  quantity_at l s = Some v <-> heap s !! l = Some (CandyObj v).
Proof.
  unfold quantity_at. destruct (heap s !! l) as [[| |q]|];
    split; intros H; try discriminate; congruence.
Qed.

Lemma update_inventory_at (s : State) (candy : loc) (q v : pyval) :
  quantity_at candy s = Some v ->
  update_inventory candy q s
  = Some (Returned tt, mkState (self s) (<[candy := CandyObj q]> (heap s))).
Proof.
  intros H. apply quantity_at_heap in H. apply update_inventory_run.
  unfold is_candy. now rewrite H.
Qed.

(** X11: [update_inventory] stores whatever quantity it is given, a
    negative int or a value that is no int included, and never fails on a
    candy; the receiver, the history, the carts and the other candies stay
    as they were; a second update of the same candy makes the first one
    unobservable, and updates of two different candies give the same state
    in either order. *)
Theorem update_inventory_overwrites (s : State) (candy : loc) (q v : pyval)
    (Hcandy : quantity_at candy s = Some v) :
  exists s',
    update_inventory candy q s = Some (Returned tt, s') /\
    quantity_at candy s' = Some q /\
    self s' = self s /\ history s' = history s /\
    (forall l, cart_at l s' = cart_at l s) /\
    (forall k, k <> candy -> quantity_at k s' = quantity_at k s) /\
    (forall q2, update_inventory candy q2 s' = update_inventory candy q2 s) /\
    (forall candy2 q2 v2, candy2 <> candy -> quantity_at candy2 s = Some v2 ->
       exists sa sb final,
         update_inventory candy2 q2 s' = Some (Returned tt, final) /\
         update_inventory candy2 q2 s = Some (Returned tt, sb) /\
         update_inventory candy q sb = Some (Returned tt, final) /\
         update_inventory candy q s = Some (Returned tt, sa) /\ sa = s').
Proof.
  pose proof (proj1 (quantity_at_heap _ _ _) Hcandy) as Hh.
  exists (mkState (self s) (<[candy := CandyObj q]> (heap s))).
  split; [exact (update_inventory_at s candy q v Hcandy)|].
  split; [apply quantity_at_heap; cbn [heap]; apply lookup_insert_eq|].
  split; [reflexivity|].
  split.
  { unfold history. cbn [self heap].
    destruct (decide (candy = _orders (self s))) as [E|N].
    - rewrite <- E, lookup_insert_eq, Hh. reflexivity.
    - now rewrite lookup_insert_ne. }
  split.
  { intros l. unfold cart_at. cbn [heap].
    destruct (decide (candy = l)) as [<-|N].
    - rewrite lookup_insert_eq, Hh. reflexivity.
    - now rewrite lookup_insert_ne. }
  split.
  { intros k N. unfold quantity_at. cbn [heap]. now rewrite lookup_insert_ne. }
  split.
  { intros q2.
    rewrite (update_inventory_at s candy q2 v Hcandy).
    rewrite (update_inventory_at _ candy q2 q)
      by (apply quantity_at_heap; cbn [heap]; apply lookup_insert_eq).
    cbn [self heap]. now rewrite insert_insert_eq. }
  intros candy2 q2 v2 N H2.
  pose proof (proj1 (quantity_at_heap _ _ _) H2) as Hh2.
  eexists _, _, _.
  split; [apply (update_inventory_at _ candy2 q2 v2), quantity_at_heap;
          cbn [heap]; rewrite lookup_insert_ne by congruence; exact Hh2|].
  split; [exact (update_inventory_at s candy2 q2 v2 H2)|].
  split; [|split; [exact (update_inventory_at s candy q v Hcandy) | reflexivity]].
  rewrite (update_inventory_at _ candy q v)
    by (apply quantity_at_heap; cbn [heap];
        rewrite lookup_insert_ne by exact N; exact Hh).
  cbn [self heap]. now rewrite (insert_insert_ne (heap s) candy candy2).
Qed.

(** The exact sum of the totals that are ints. *)
Definition int_sum (orders : list Order) : Z :=
  foldr (fun o acc => default 0 (int_total o) + acc) 0 orders.

Definition has_int_total (o : Order) : bool :=
  match int_total o with
  | Some _ => true
  | None => false
  end.

Lemma sum_from_ints (orders : list Order) (a : Z) :
  forallb has_int_total orders = true ->
  sum_from (NInt a) (map total_amount orders) = Some (NInt (a + int_sum orders)).
Proof.
  revert a. induction orders as [|o os IH]; intros a H;
    cbn [map sum_from int_sum foldr].
  - now rewrite Z.add_0_r.
  - cbn [forallb] in H. apply andb_true_iff in H as (Ho & Hos).
    unfold has_int_total, int_total in *.
    destruct (total_amount o) as [z|f]; [|discriminate].
    cbn [py_add mbind option_bind default]. rewrite (IH _ Hos).
    fold (int_sum os). now rewrite Z.add_assoc.
Qed.

Lemma int_sum_permutation (orders orders' : list Order) :
  Permutation orders orders' -> int_sum orders = int_sum orders'.
Proof.
  induction 1 as [|o os os' _ IH|o1 o2 os|os1 os2 os3 _ IH1 _ IH2];
    unfold int_sum in *; cbn [foldr]; lia.
Qed.

Lemma has_int_total_permutation (orders orders' : list Order) :
  Permutation orders orders' ->
  forallb has_int_total orders = true -> forallb has_int_total orders' = true.
Proof.
  intros Hp. rewrite !forallb_forall. intros H o Hin. apply H.
  apply Permutation_sym in Hp. exact (Permutation_in o Hp Hin).
Qed.

(** X12: when every total is an int, the report is made from the exact
    sum of the totals, and so is the same for every order of the list. *)
Theorem integer_totals_are_summed_exactly (s : State)
    (orders orders' : list Order)
    (Hints : forallb has_int_total orders = true)
    (Hperm : Permutation orders orders') :
  py_sum (map total_amount orders) = Some (NInt (int_sum orders)) /\
  view_sales_report orders' s = view_sales_report orders s.
Proof.
  pose proof (has_int_total_permutation _ _ Hperm Hints) as Hints'.
  unfold view_sales_report, py_sum.
  rewrite (sum_from_ints orders 0 Hints), (sum_from_ints orders' 0 Hints').
  rewrite (int_sum_permutation _ _ Hperm). split; reflexivity.
Qed.

Lemma bind_ret_outcome {A B} (m : M A) (f : A -> B) (s s' : State)
    (r : outcome B) :
  bind m (fun x => ret (f x)) s = Some (r, s') ->
  exists r0, m s = Some (r0, s') /\
    r = match r0 with Returned a => Returned (f a) | Raised e => Raised e end.
Proof.
  unfold bind, ret. destruct (m s) as [[[a|e] s0]|]; intros [= <- <-]; eauto.
Qed.

(** X13: the methods of [User] that work on the cart and the history
    raise nothing of their own but the refusal of [checkout]: whatever
    [add_to_cart] raises is a failure of the cart passed on, whatever
    [checkout] raises is that or its ValueError "Cart is empty", which
    leaves the state as it was; in particular the access to the cart
    cannot fail; and [get_orders] and [get_cart] always return. *)
Theorem cart_methods_raise_nothing_of_their_own (c : call) (s s' : State)
    (r : outcome value)
    (Hwf : wf s = true) (Hc : cart_or_history_call c = true)
    (Hcall : invoke c s = Some (r, s')) :
  (forall e, r = Raised e ->
     (is_checkout c = true /\ e = ValueError (str "Cart is empty") /\
      s' = s) \/
     (cart_call c = true /\ exists f, e = Foreign f)) /\
  (match c with
   | GetOrders | GetCart => exists v, r = Returned v
   | _ => True
   end).
Proof.
  destruct c as [em pw| |old new|candy q|pm| | |candy q|orders];
    try discriminate; cbn [invoke] in Hcall;
    apply bind_ret_outcome in Hcall as (r0 & H & ->).
  - split; [|exact I].
    destruct (add_to_cart_cases s s' candy q r0 Hwf H)
      as [(l & c & _ & _ & _ & -> & _)|(_ & -> & _)];
      (destruct (fst (add_item _ candy q)) as [f|u]; cbn [outcome_of];
       [intros e [= <-]; right; split; [reflexivity | now exists f]
       |discriminate]).
  - split; [|exact I].
    pose proof (wf_shape s Hwf) as ((xs & Hxs) & _). apply history_heap in Hxs.
    destruct (checkout_cases s s' pm xs r0 Hwf Hxs H)
      as [(-> & Hs)|[(l & c & e0 & c1 & _ & _ & _ & -> & _)
                   |(l & c & o & c1 & res & c2 & _ & _ & _ & _ & -> & _)]].
    + intros e [= <-]. left. split; [reflexivity|]. split; [reflexivity|].
      apply Hs.
    + intros e [= <-]. right. split; [reflexivity | now exists e0].
    + destruct res as [f|u]; [|discriminate].
      intros e [= <-]. right. split; [reflexivity | now exists f].
  - pose proof (wf_shape s Hwf) as ((xs & Hxs) & _).
    rewrite (get_orders_run s xs Hxs) in H. injection H as <- _.
    split; [discriminate | now eexists].
  - unfold get_cart in H. unfold_m. injection H as <- _.
    split; [discriminate | now eexists].
Qed.

End StaffAndErrors.

(** ** A Staff where a User is expected *)

Section Substitution.

Context `{shop : Collaborators}.

Variable pos : pystr.

(** [m1] on the Staff does what [m2] does on the User. *)
Definition mirrors {A} (m1 m2 : M A) : Prop :=
  forall s, m1 (as_staff pos s) = on_state (as_staff pos) (m2 s).

Lemma mirrors_ret {A} (a : A) : mirrors (ret a) (ret a).
Proof. intros s. reflexivity. Qed.

Lemma mirrors_raise {A} (e : exn) : mirrors (@raise _ A e) (raise e).
Proof. intros s. reflexivity. Qed.

Lemma mirrors_ill_formed {A} : mirrors (@ill_formed _ A) ill_formed.
Proof. intros s. reflexivity. Qed.

Lemma mirrors_load (l : loc) : mirrors (load l) (load l).
Proof. intros s. unfold load, as_staff. cbn [heap]. now destruct (heap s !! l). Qed.

Lemma mirrors_store (l : loc) (o : obj) : mirrors (store l o) (store l o).
Proof. intros s. reflexivity. Qed.

Lemma mirrors_alloc (o : obj) : mirrors (alloc o) (alloc o).
Proof. intros s. reflexivity. Qed.

Lemma mirrors_put_self (u1 u2 : UserObj) :
  u1 = set_position pos u2 -> mirrors (put_self u1) (put_self u2).
Proof. intros -> s. reflexivity. Qed.

Lemma mirrors_bind {A B} (m1 m2 : M A) (k1 k2 : A -> M B) :
  mirrors m1 m2 -> (forall a, mirrors (k1 a) (k2 a)) ->
  mirrors (bind m1 k1) (bind m2 k2).
Proof.
  intros Hm Hk s. unfold bind. rewrite (Hm s).
  destruct (m2 s) as [[[a|e] s1]|]; cbn [on_state]; [apply Hk | reflexivity..].
Qed.

Lemma mirrors_get_self {B} (k1 k2 : UserObj -> M B) :
  (forall u, mirrors (k1 (set_position pos u)) (k2 u)) ->
  mirrors (bind get_self k1) (bind get_self k2).
Proof. intros Hk s. unfold bind, get_self. apply Hk. Qed.

Ltac mirror :=
  repeat first
    [ apply mirrors_get_self; intros ?;
      cbn [set_position set_cart set_password cls person_id name email
           _password _orders _cart email_verified position]
    | apply mirrors_ret | apply mirrors_raise | apply mirrors_ill_formed
    | apply mirrors_load | apply mirrors_store | apply mirrors_alloc
    | apply mirrors_put_self; reflexivity
    | apply mirrors_bind; [|intros ?]
    | match goal with
      | |- mirrors (match ?x with _ => _ end) _ => destruct x
      end ].

Lemma mirrors_call_cart {A} (meth : string)
    (f : ShoppingCart -> (CollabError + A) * ShoppingCart) :
  mirrors (call_cart meth f) (call_cart meth f).
Proof. unfold call_cart. mirror. Qed.

Lemma mirrors_not_cart : mirrors not_cart not_cart.
Proof. unfold not_cart. mirror. Qed.

(** X14: the methods that [User] defines do not look at the class or at
    the position of the receiver: called on the receiver turned into a
    Staff with any position, each gives the same outcome and the same
    final state, turned into that Staff. *)
Theorem staff_behaves_as_user (c : call) (s : State) :
  user_call c = true ->
  invoke c (as_staff pos s) = on_state (as_staff pos) (invoke c s).
Proof.
  intros Hc. revert s. change (mirrors (invoke c) (invoke c)).
  destruct c as [em pw| |old new|candy q|pm| | |candy q|orders];
    try discriminate; clear Hc; cbn [invoke].
  - unfold login. mirror.
  - unfold validate, getitem_last. mirror.
  - unfold change_password. mirror.
  - unfold add_to_cart. apply mirrors_bind; [|intros ?].
    + apply mirrors_bind; [apply mirrors_not_cart | intros ?].
      apply mirrors_bind; [mirror | intros ?]. apply mirrors_call_cart.
    + mirror.
  - unfold checkout. apply mirrors_bind; [|intros ?; mirror].
    apply mirrors_bind; [apply mirrors_not_cart | intros no_cart].
    destruct no_cart; [mirror|].
    apply mirrors_bind; [apply mirrors_call_cart | intros ?].
    apply mirrors_get_self. intros u.
    cbn [set_position _orders].
    apply mirrors_bind; [unfold list_append; mirror | intros ?].
    apply mirrors_bind; [apply mirrors_call_cart | intros ?]. mirror.
  - unfold get_orders, list_copy. mirror.
  - unfold get_cart. mirror.
Qed.

End Substitution.

(** ** The further properties on the concrete shops *)

Section MoreScenarios.

#[local] Existing Instance Demo.shop.

Lemma password_round_trip_scenario :
  exists s1,
    change_password (str "secret123") (str "longenough1") Demo.ann
      = Some (Returned true, s1) /\
    change_password (str "longenough1") (str "secret123") s1
      = Some (Returned true, Demo.ann).
Proof.
  destruct (change_password_round_trip Demo.ann (str "longenough1")
              ltac:(vm_compute; discriminate)) as (H1 & H2 & _).
  eexists. split; [exact H1|]. apply H2. vm_compute. discriminate.
Defined.

Lemma password_kept_scenario :
  exists s',
    run [AddToCart 5%positive (PyInt 2); Checkout (str "card"); GetOrders]
      Demo.ann = Some s' /\
    _password (self s') = _password (self Demo.ann).
Proof.
  eexists. split; [vm_compute; reflexivity|].
  refine (proj1 (proj2 (password_changes_only_by_change_password (shop := Demo.shop)
            [AddToCart 5%positive (PyInt 2); Checkout (shop := Demo.shop) (str "card"); GetOrders]
            Demo.ann _ _ _) _)); vm_compute; reflexivity.
Defined.

Lemma identity_kept_scenario :
  exists s' text,
    run [ChangePassword (str "secret123") (str "longenough1");
         AddToCart 5%positive (PyInt 2); Checkout (str "card")] Demo.ann
      = Some s' /\
    display_info (fun _ => str "0.0") Demo.ann = Some (Returned text, Demo.ann) /\
    display_info (fun _ => str "0.0") s' = Some (Returned text, s').
Proof.
  eexists.
  destruct (identity_is_kept (shop := Demo.shop) (fun _ => str "0.0")
              [ChangePassword (str "secret123") (str "longenough1");
               AddToCart 5%positive (PyInt 2); Checkout (shop := Demo.shop) (str "card")]
              Demo.ann _ ltac:(vm_compute; reflexivity)
              ltac:(vm_compute; reflexivity))
    as (_ & _ & _ & _ & text & H1 & H2).
  exists text. split; [vm_compute; reflexivity|]. exact (conj H1 H2).
Defined.

Lemma display_info_scenario :
  display_info (fun _ => str "0.0") Demo.ann
  = Some (Returned (str "Ann (a@b.com)"), Demo.ann).
Proof.
  destruct (display_info_of_valid_record (fun _ => str "0.0") Demo.ann
              ltac:(vm_compute; reflexivity)) as (nm & Hn & Hd & _).
  rewrite Hd. vm_compute in Hn. injection Hn as <-. vm_compute. reflexivity.
Defined.

Lemma history_grows_scenario :
  exists s' ys,
    run [AddToCart 5%positive (PyInt 2); Checkout (str "card"); GetOrders;
         Checkout (str "card")] Demo.ann = Some s' /\
    history s' = Some ([] ++ ys) /\ (length ys <= 2)%nat.
Proof.
  eexists.
  destruct (history_only_grows (shop := Demo.shop)
              [AddToCart 5%positive (PyInt 2); Checkout (shop := Demo.shop) (str "card"); GetOrders;
               Checkout (shop := Demo.shop) (str "card")] Demo.ann _ []
              ltac:(vm_compute; reflexivity) ltac:(vm_compute; reflexivity)
              ltac:(vm_compute; reflexivity)) as ((ys & H1 & H2) & _).
  exists ys. split; [vm_compute; reflexivity|]. exact (conj H1 H2).
Defined.

Lemma failed_first_add_scenario :
  exists s',
    add_to_cart 5%positive (PyInt 0) Demo.ann
      = Some (Raised (Foreign Demo.BadQuantity), s') /\
    _cart (self s') = Some (fresh (dom (heap Demo.ann))) /\
    history s' = history Demo.ann.
Proof.
  destruct (failed_first_add_leaves_a_cart Demo.ann 5%positive (PyInt 0)
              Demo.BadQuantity [] ltac:(vm_compute; reflexivity)
              ltac:(vm_compute; reflexivity) ltac:(vm_compute; reflexivity))
    as (s' & H1 & H2 & _ & H3 & _).
  exists s'. exact (conj H1 (conj H2 H3)).
Defined.

Lemma live_cart_scenario :
  get_cart Demo.ann_shopping
    = Some (Returned (Some 2%positive), Demo.ann_shopping) /\
  exists s',
    checkout (str "card") (mutate_cart 2%positive [(6%positive, 3)] Demo.ann_shopping)
      = Some (Returned (Demo.mkOrder [(6%positive, 3)] (str "card") (NInt 3)), s') /\
    history s' = Some ([] ++ [Demo.mkOrder [(6%positive, 3)] (str "card") (NInt 3)]).
Proof.
  destruct (get_cart_is_live Demo.ann_shopping 2%positive
              [(5%positive, 2)] [(6%positive, 3)] [] (str "card")
              (Demo.mkOrder [(6%positive, 3)] (str "card") (NInt 3))
              [(6%positive, 3)] []
              ltac:(vm_compute; reflexivity) ltac:(vm_compute; reflexivity)
              ltac:(vm_compute; reflexivity) ltac:(vm_compute; reflexivity)
              ltac:(vm_compute; reflexivity) ltac:(vm_compute; reflexivity))
    as (H1 & s' & H2 & H3 & _).
  split; [exact H1|]. exists s'. exact (conj H2 H3).
Defined.

Lemma independent_copies_scenario :
  exists l1 s1 l2 s2,
    get_orders Demo.ann = Some (Returned l1, s1) /\
    get_orders s1 = Some (Returned l2, s2) /\
    items_at l2 (mutate_list l1 [Demo.order_of (NInt 1)] s2) = Some [].
Proof.
  destruct (get_orders_copies_are_independent Demo.ann []
              ltac:(vm_compute; reflexivity))
    as (l1 & s1 & l2 & s2 & H1 & H2 & _ & _ & _ & _ & _ & H3).
  exists l1, s1, l2, s2.
  exact (conj H1 (conj H2 (proj1 (proj2 (H3 [Demo.order_of (NInt 1)]))))).
Defined.

Lemma negative_inventory_scenario :
  exists s',
    update_inventory 1%positive (PyInt (-5)) Demo.bob = Some (Returned tt, s') /\
    quantity_at 1%positive s' = Some (PyInt (-5)) /\
    history s' = history Demo.bob.
Proof.
  destruct (update_inventory_overwrites Demo.bob 1%positive (PyInt (-5)) (PyInt 7)
              ltac:(vm_compute; reflexivity))
    as (s' & H1 & H2 & _ & H3 & _).
  exists s'. exact (conj H1 (conj H2 H3)).
Defined.

Lemma integer_totals_scenario :
  view_sales_report [Demo.order_of (NInt 4); Demo.order_of (NInt 3)] Demo.bob
  = view_sales_report [Demo.order_of (NInt 3); Demo.order_of (NInt 4)] Demo.bob.
Proof.
  exact (proj2 (integer_totals_are_summed_exactly Demo.bob
                  [Demo.order_of (NInt 3); Demo.order_of (NInt 4)]
                  [Demo.order_of (NInt 4); Demo.order_of (NInt 3)]
                  eq_refl (perm_swap _ _ _))).
Defined.

Lemma bad_quantity_scenario :
  exists s',
    invoke (AddToCart 5%positive (PyInt 0)) Demo.ann
      = Some (Raised (Foreign Demo.BadQuantity), s') /\
    ((is_checkout (AddToCart 5%positive (PyInt 0)) = true /\
      Foreign Demo.BadQuantity = ValueError (str "Cart is empty") /\
      s' = Demo.ann) \/
     (cart_call (AddToCart 5%positive (PyInt 0)) = true /\
      exists f, Foreign Demo.BadQuantity = Foreign f)).
Proof.
  eexists. split; [vm_compute; reflexivity|].
  refine (proj1 (cart_methods_raise_nothing_of_their_own (shop := Demo.shop)
                   (AddToCart (shop := Demo.shop) 5%positive (PyInt 0))
                   Demo.ann _ _ _ _ _) _ eq_refl);
    vm_compute; reflexivity.
Defined.

Lemma staff_login_scenario :
  invoke (Login (str "a@b.com") (str "secret123"))
    (as_staff (str "manager") Demo.ann)
  = on_state (as_staff (str "manager"))
      (invoke (Login (str "a@b.com") (str "secret123")) Demo.ann).
Proof.
  exact (staff_behaves_as_user (str "manager")
           (Login (str "a@b.com") (str "secret123")) Demo.ann eq_refl).
Defined.

End MoreScenarios.

Section FaultyScenario.

#[local] Existing Instance Faulty.shop.

Lemma failed_clear_scenario :
  exists s',
    checkout (str "card") Faulty.fay_shopping
      = Some (Raised (Foreign Faulty.CannotClear), s') /\
    history s'
      = Some ([] ++ [Demo.mkOrder [(5%positive, 2)] (str "card") (NInt 2)]).
Proof.
  destruct (checkout_failure_paths Faulty.fay_shopping (str "card") 2%positive
              [(5%positive, 2)] []
              ltac:(vm_compute; reflexivity) ltac:(vm_compute; reflexivity)
              ltac:(vm_compute; reflexivity) ltac:(vm_compute; reflexivity))
    as (_ & H).
  destruct (H (Demo.mkOrder [(5%positive, 2)] (str "card") (NInt 2))
              [(5%positive, 2)] Faulty.CannotClear [(5%positive, 2)]
              ltac:(vm_compute; reflexivity) ltac:(vm_compute; reflexivity))
    as (s' & H1 & H2 & _).
  exists s'. exact (conj H1 H2).
Defined.

End FaultyScenario.

Section SizedCartScenario.

#[local] Existing Instance Sized.shop.

Lemma false_cart_scenario :
  exists s,
    run [AddToCart 5%positive (PyInt 2); Checkout (str "card")] Sized.eve
      = Some s /\
    _cart (self s) = Some 2%positive /\
    checkout (str "card") s
      = Some (Raised (ValueError (str "Cart is empty")), s).
Proof.
  eexists. split; [vm_compute; reflexivity|].
  split; [vm_compute; reflexivity|].
  refine (proj1 (false_cart_counts_as_no_cart _ 2%positive [] _ _ _) (str "card"));
    vm_compute; reflexivity.
Defined.

End SizedCartScenario.

(** ** New accounts *)

Section NewAccounts.

Context `{shop : Collaborators}.

(** X15: a new User has an empty history in a list of its own, no cart
    and the credentials it was given, whether or not these are valid: the
    constructor checks nothing, [login] with them succeeds at once,
    [checkout] is refused, and [validate] accepts the record exactly when
    id, name and email are valid.  A new Staff is that User with the class
    Staff and the position; only on it are the methods of Staff found. *)
Theorem new_accounts (user_id nm : pyval) (em pw pos : pystr)
    (h : gmap loc obj) :
  let s := User_init user_id nm em pw h in
  let t := Staff_init user_id nm em pw pos h in
  (history s = Some [] /\ h !! _orders (self s) = None /\
   (forall k, k <> _orders (self s) -> heap s !! k = h !! k) /\
   _cart (self s) = None) /\
  login em pw s = Some (Returned true, s) /\
  (forall pm,
     checkout pm s = Some (Raised (ValueError (str "Cart is empty")), s)) /\
  (validate s = Some (Returned tt, s) <->
   nonneg_int user_id /\ nonblank_str nm /\ dotted_domain em) /\
  (t = as_staff pos s /\ cls (self t) = StaffClass /\
   position (self t) = Some pos) /\
  (forall orders,
     invoke (ViewSalesReport orders) s =
       Some (Raised (AttributeError
                       (str "'User' object has no attribute 'view_sales_report'")),
             s)) /\
  (forall orders, exists r,
     view_sales_report orders t = Some (r, t) /\
     invoke (ViewSalesReport orders) t =
       Some (match r with
             | Returned text => Returned (VStr text)
             | Raised e => Raised e
             end, t)).
Proof.
  intros s t.
  split; [|split; [|split; [|split; [|split; [|split]]]]].
  - split; [|split; [|split; [|reflexivity]]].
    + apply history_heap. unfold s, User_init. cbn [self heap _orders].
      apply lookup_insert_eq.
    + apply fresh_not_allocated.
    + intros k Hk. unfold s, User_init in *. cbn [self heap _orders] in *.
      rewrite lookup_insert_ne by congruence. reflexivity.
  - rewrite login_run. unfold s, User_init. cbn [self email _password].
    assert (forall p : pystr, str_eq p p = true) as R
      by (intros p; now apply str_eq_true).
    now rewrite !R.
  - intros pm. apply checkout_refused, not_cart_none. reflexivity.
  - destruct (validate_cases s) as [(Hv & Hok)|(msg & _ & Hv & Hbad)].
    + split; [intros _; exact Hok | intros _; exact Hv].
    + split; [rewrite Hv; discriminate | intros Hok; contradiction].
  - repeat split.
  - intros orders. reflexivity.
  - intros orders.
    destruct (view_sales_report_stateless orders) as (r & Hr).
    exists r. split; [apply Hr|].
    unfold invoke, staff_method. unfold_m. unfold t, Staff_init at 1.
    cbn [self set_position cls]. fold t. rewrite (Hr t).
    destruct r; reflexivity.
Qed.

(** X16: a sum below zero that rounds to no hundredths at all, the
    negative zero included, is reported with its sign, as
    "Total sales: $-0.00". *)
Theorem negative_zero_is_reported_with_its_sign (s : State)
    (orders : list Order) (total : number) (f : float)
    (Hsum : py_sum (map total_amount orders) = Some total)
    (Hfloat : to_float total = Some f)
    (Hzero : hundredths f = Some (true, 0)) :
  view_sales_report orders s = Some (Returned (str "Total sales: $-0.00"), s).
Proof.
  apply (view_sales_report_run orders s total); [exact Hsum|].
  rewrite (format_2f_to_float total f Hfloat),
    (format_hundredths f true 0 Hzero).
  reflexivity.
Qed.

End NewAccounts.

Section NewAccountScenarios.

#[local] Existing Instance Demo.shop.

Lemma small_loss_scenario :
  view_sales_report
    [Demo.order_of (NFloat 1.25); Demo.order_of (NFloat (-1.2509765625))] Demo.bob
  = Some (Returned (str "Total sales: $-0.00"), Demo.bob).
Proof.
  refine (negative_zero_is_reported_with_its_sign Demo.bob
            [Demo.order_of (NFloat 1.25); Demo.order_of (NFloat (-1.2509765625))]
            (NFloat (1.25 + -1.2509765625)) (1.25 + -1.2509765625)%float _ _ _);
    vm_compute; reflexivity.
Defined.

End NewAccountScenarios.
